(** * InstantRE: the document generation and checkout pipeline of [app.py]

    A shallow embedding of the Flask application [app.py]: the two request
    handlers [generate_document] and [create_checkout_session], the renderer
    [create_pdf], and the statements the module executes when it is loaded.

    Python strings are sequences of Unicode code points, requests carry
    parsed JSON or form data, the external collaborators (the completion
    backend, the payment backend, the clock and the random source) are
    arguments of the handlers, and every effect a handler performs is
    recorded in a trace of events. What the libraries decide (which markup
    ReportLab's paragraph parser refuses, whether a build or a call made
    while the module is loaded raises) is an argument as well. *)

From Stdlib Require Import ZArith NArith List String Ascii Lia DecimalString.
From stdpp Require Import base option list gmap strings.

Local Open Scope N_scope.

(** ** Python strings *)

(** A [str] is a sequence of code points; lone surrogates are legal members
    of a [str], which is what makes [str.encode] partial. *)
Abbreviation pystr := (list N).

(** An ASCII literal of the source as a [str]. *)
Definition lit (s : string) : pystr :=
  (λ a, N_of_ascii a) <$> list_ascii_of_string s.

(** The line feed, written ['\n'] in the source. *)
Definition LF : N := 10.
Definition nl : pystr := [LF].

(** The bullet of the optional-clause lines of the prompt, U+2022. *)
Definition bullet : pystr := [8226].

(** [sub in s]: the substring test, as a proposition and as a function. *)
Definition substring (sub s : pystr) : Prop :=
  ∃ pre post, s = pre ++ sub ++ post.

Fixpoint starts_with (p s : pystr) : bool :=
  match p, s with
  | [], _ => true
  | a :: p', b :: s' => (a =? b) && starts_with p' s'
  | _ :: _, [] => false
  end.

Fixpoint contains (sub s : pystr) : bool :=
  starts_with sub s ||
  match s with
  | [] => false
  | _ :: s' => contains sub s'
  end.

Definition ends_with (suffix s : pystr) : Prop :=
  ∃ pre, s = pre ++ suffix.

(** [str.split(sep)] for a one-character separator: the fields between the
    separators, empty fields included; the result is never empty. *)
Fixpoint split_on (sep : N) (s : pystr) : list pystr :=
  match s with
  | [] => [[]]
  | c :: s' =>
      if c =? sep then [] :: split_on sep s'
      else match split_on sep s' with
           | [] => [[c]]
           | w :: ws => (c :: w) :: ws
           end
  end.

(** [str.isspace] on one code point: the Unicode white space characters. *)
Definition is_space (c : N) : bool :=
  ((9 <=? c) && (c <=? 13)) || ((28 <=? c) && (c <=? 32)) ||
  (c =? 133) || (c =? 160) || (c =? 5760) ||
  ((8192 <=? c) && (c <=? 8202)) || (c =? 8232) || (c =? 8233) ||
  (c =? 8239) || (c =? 8287) || (c =? 12288).

(** [str.strip()] with no argument. *)
Fixpoint lstrip (s : pystr) : pystr :=
  match s with
  | c :: s' => if is_space c then lstrip s' else s
  | [] => []
  end.

Definition strip (s : pystr) : pystr := rev (lstrip (rev (lstrip s))).

(** Upper-casing of the ASCII letters. *)
Definition ascii_upper_char (c : N) : N :=
  if (97 <=? c) && (c <=? 122) then c - 32 else c.

Definition ascii_upper (s : pystr) : pystr := ascii_upper_char <$> s.

Definition is_ascii (s : pystr) : Prop := Forall (λ c, c < 128) s.

(** Decimal rendering of an [int]. *)
Definition str_of_Z (z : Z) : pystr :=
  lit (NilZero.string_of_int (Z.to_int z)).

(** ** UTF-8 *)

Definition is_surrogate (c : N) : bool := (55296 <=? c) && (c <=? 57343).

Fixpoint take_while {A} (p : A → bool) (l : list A) : list A :=
  match l with
  | a :: l' => if p a then a :: take_while p l' else []
  | [] => []
  end.

(** [str.encode('utf-8')] on one code point; [None] stands for the
    [UnicodeEncodeError] raised on a surrogate. *)
Definition utf8_encode_char (c : N) : option (list N) :=
  if c <? 128 then Some [c]
  else if c <? 2048 then Some [192 + c / 64; 128 + c mod 64]
  else if is_surrogate c then None
  else if c <? 65536 then
    Some [224 + c / 4096; 128 + (c / 64) mod 64; 128 + c mod 64]
  else if c <? 1114112 then
    Some [240 + c / 262144; 128 + (c / 4096) mod 64;
          128 + (c / 64) mod 64; 128 + c mod 64]
  else None.

Fixpoint utf8_encode (s : pystr) : option (list N) :=
  match s with
  | [] => Some []
  | c :: s' =>
      bs ← utf8_encode_char c;
      rest ← utf8_encode s';
      Some (bs ++ rest)
  end.

Definition is_cont (b : N) : bool := (128 <=? b) && (b <? 192).

(** [bytes.decode('utf-8')], strict: overlong forms, surrogates and values
    beyond U+10FFFF are refused. The fuel is the number of bytes. *)
Fixpoint utf8_decode_fuel (fuel : nat) (bs : list N) : option pystr :=
  match fuel with
  | O => match bs with [] => Some [] | _ => None end
  | S fuel' =>
      match bs with
      | [] => Some []
      | b0 :: r0 =>
          if b0 <? 128 then cons b0 <$> utf8_decode_fuel fuel' r0
          else if b0 <? 192 then None
          else if b0 <? 224 then
            match r0 with
            | b1 :: r1 =>
                let c := (b0 - 192) * 64 + (b1 - 128) in
                if is_cont b1 && (128 <=? c)
                then cons c <$> utf8_decode_fuel fuel' r1 else None
            | _ => None
            end
          else if b0 <? 240 then
            match r0 with
            | b1 :: b2 :: r2 =>
                let c := (b0 - 224) * 4096 + (b1 - 128) * 64 + (b2 - 128) in
                if is_cont b1 && is_cont b2 && (2048 <=? c)
                   && negb (is_surrogate c)
                then cons c <$> utf8_decode_fuel fuel' r2 else None
            | _ => None
            end
          else if b0 <? 248 then
            match r0 with
            | b1 :: b2 :: b3 :: r3 =>
                let c := (b0 - 240) * 262144 + (b1 - 128) * 4096
                         + (b2 - 128) * 64 + (b3 - 128) in
                if is_cont b1 && is_cont b2 && is_cont b3
                   && (65536 <=? c) && (c <? 1114112)
                then cons c <$> utf8_decode_fuel fuel' r3 else None
            | _ => None
            end
          else None
      end
  end.

Definition utf8_decode (bs : list N) : option pystr :=
  utf8_decode_fuel (length bs) bs.

(** ** Values, exceptions and effects *)

(** The values a request field can hold. [VOther] stands for a float, an
    array or a nested object of a JSON body: the handlers only format such a
    value, test its truth and hash it, so it carries its type name, its
    [str()] text, its truth value and whether it is hashable. *)
Inductive value :=
| VNone
| VBool (b : bool)
| VInt (z : Z)
| VStr (s : pystr)
| VOther (tyname text : pystr) (truth hashable : bool).

#[global] Instance value_eq_dec : EqDecision value.
Proof. solve_decision. Defined.

(** [str(v)], which is also what an f-string field [{v}] renders. *)
Definition py_str (v : value) : pystr :=
  match v with
  | VNone => lit "None"
  | VBool true => lit "True"
  | VBool false => lit "False"
  | VInt z => str_of_Z z
  | VStr s => s
  | VOther _ text _ _ => text
  end.

(** [bool(v)]. *)
Definition truthy (v : value) : bool :=
  match v with
  | VNone => false
  | VBool b => b
  | VInt z => negb (z =? 0)%Z
  | VStr s => match s with [] => false | _ => true end
  | VOther _ _ t _ => t
  end.

Definition type_name (v : value) : pystr :=
  match v with
  | VNone => lit "NoneType"
  | VBool _ => lit "bool"
  | VInt _ => lit "int"
  | VStr _ => lit "str"
  | VOther ty _ _ _ => ty
  end.

Inductive exn_class :=
| AttributeError | TypeError | NameError | IndexError | UnicodeEncodeError
| ValueError | HTTPException | BackendError.

(** An exception derived from [Exception]: its class and its [str(e)]. *)
Record exn := Exn { exn_cls : exn_class; exn_str : pystr }.

Definition attribute_error (v : value) (attr : string) : exn :=
  Exn AttributeError
      (lit "'" ++ type_name v ++ lit "' object has no attribute '"
           ++ lit attr ++ lit "'").

Definition name_error (x : string) : exn :=
  Exn NameError (lit "name '" ++ lit x ++ lit "' is not defined").

Definition unhashable (v : value) : exn :=
  Exn TypeError (lit "unhashable type: '" ++ type_name v ++ lit "'").

(** *** ReportLab flowables *)

Inductive alignment := TA_CENTER | TA_JUSTIFY.

Record ParagraphStyle := {
  style_name : pystr;
  style_parent : pystr;
  fontSize : Z;
  style_alignment : alignment;
  textColor : option pystr;
  leading : option Z
}.

(** The flowables the module makes: a paragraph that [Paragraph(text, style)]
    returned, and a [Spacer(width, height)]. *)
Inductive flowable :=
| Paragraph (text : pystr) (style : ParagraphStyle)
| Spacer (width height : Z).

#[global] Instance alignment_eq_dec : EqDecision alignment.
Proof. solve_decision. Defined.
#[global] Instance ParagraphStyle_eq_dec : EqDecision ParagraphStyle.
Proof. solve_decision. Defined.
#[global] Instance flowable_eq_dec : EqDecision flowable.
Proof. solve_decision. Defined.

(** [SimpleDocTemplate(filepath, pagesize=letter)]. *)
Record SimpleDocTemplate := { doc_filename : pystr; pagesize : Z * Z }.

Definition letter : Z * Z := (612, 792)%Z.

(** *** Requests to the collaborators *)

Record chat_request := {
  chat_model : pystr;
  chat_messages : list (pystr * pystr);
  max_tokens : Z
}.

Record line_item := {
  currency : pystr;
  product_name : pystr;
  unit_amount : Z;
  quantity : Z
}.

Record session_params := {
  payment_method_types : list pystr;
  line_items : list line_item;
  mode : pystr;
  success_url : pystr;
  cancel_url : pystr
}.

(** *** The trace *)

Inductive event :=
| EvChatCompletion (r : chat_request)
| EvCheckoutSession (p : session_params)
| EvLogError (msg : pystr)
| EvPrint (msg : pystr)
| EvBuild (doc : SimpleDocTemplate) (content : list flowable).

(** A computation emits events and ends with a value or an exception. *)
Definition M (A : Type) : Type := list event * (exn + A).

#[global] Instance M_ret : MRet M := λ A a, ([], inr a).
#[global] Instance M_bind : MBind M := λ A B f m,
  match m with
  | (t, inl e) => (t, inl e)
  | (t, inr a) => let '(t', r) := f a in (t ++ t', r)
  end.

#[global] Instance M_fmap : FMap M := λ A B f m,
  match m with
  | (t, inl e) => (t, inl e)
  | (t, inr a) => (t, inr (f a))
  end.

Definition raise {A} (e : exn) : M A := ([], inl e).
Definition emit (ev : event) : M unit := ([ev], inr tt).

(** [try: m except Exception as e: h e]. *)
Definition try_except {A} (m : M A) (h : exn → M A) : M A :=
  match m with
  | (t, inl e) => let '(t', r) := h e in (t ++ t', r)
  | (t, inr a) => (t, inr a)
  end.

(** The call of a collaborator whose outcome is given. *)
Definition call {A} (ev : event) (outcome : exn + A) : M A :=
  (_ ← emit ev; (([], outcome) : M A)).

(** A loop over a list that threads a state and stops at the first
    exception. *)
Fixpoint for_each {A S} (f : S → A → M S) (s : S) (l : list A) : M S :=
  match l with
  | [] => mret s
  | a :: l' => s' ← f s a; for_each f s' l'
  end.

Definition trace {A} (m : M A) : list event := fst m.
Definition outcome {A} (m : M A) : exn + A := snd m.

(** ** Requests and responses *)

(** What a handler can find as the body of a request: a JSON object (a
    [dict]), form data (a werkzeug [ImmutableMultiDict], where a key can
    occur several times and the first occurrence is the one [get] returns),
    or any other JSON value. *)
Inductive pyobj :=
| ODict (d : gmap pystr value)
| OMulti (f : list (pystr * pystr))
| OVal (v : value).

(** Flask's [request]: [request.json] is [request.get_json()], whose outcome
    is [get_json]; [request.form] is [form]. *)
Record request := {
  is_json : bool;
  get_json : exn + pyobj;
  form : list (pystr * pystr)
}.

(** What a handler returns: [jsonify(body)] and a status code. *)
Record response := { status : Z; body : gmap pystr value }.

Definition jsonify (b : list (string * value)) (code : Z) : response :=
  {| status := code;
     body := list_to_map ((λ kv, (lit kv.1, kv.2)) <$> b) |}.

(** [d.get(key, dflt)]. *)
Definition multi_get (f : list (pystr * pystr)) (key : pystr) : option pystr :=
  snd <$> List.find (λ kv, bool_decide (kv.1 = key)) f.

Definition get (data : pyobj) (key : string) (dflt : value) : M value :=
  match data with
  | ODict d => mret (default dflt (d !! lit key))
  | OMulti f => mret (default dflt (VStr <$> multi_get f (lit key)))
  | OVal v => raise (attribute_error v "get")
  end.

(** ** The module's constants *)

Definition DOCUMENT_TYPES : gmap pystr pystr :=
  list_to_map
    [ (lit "sales_contract", lit "Real Estate Sales Contract");
      (lit "lease_agreement", lit "Residential Lease Agreement");
      (lit "addendum", lit "Real Estate Contract Addendum");
      (lit "disclosure", lit "Property Condition Disclosure") ].

(** [os.path.join] on a POSIX system. *)
Definition path_join (a b : pystr) : pystr :=
  if starts_with (lit "/") b then b
  else match last a with
       | None => b
       | Some c => if c =? 47 then a ++ b else a ++ lit "/" ++ b
       end.

(** [os.path.join(os.getcwd(), "static", "downloads")]. *)
Definition DOWNLOAD_FOLDER (cwd : pystr) : pystr :=
  path_join (path_join cwd (lit "static")) (lit "downloads").

(** ** ArtifactNamer *)

Definition hex_digit (d : N) : N := if d <? 10 then 48 + d else 87 + d.

Fixpoint hex_digits_le (w : nat) (n : N) : pystr :=
  match w with
  | O => []
  | S w' => hex_digit (n mod 16) :: hex_digits_le w' (n / 16)
  end.

(** [UUID.hex]: the 128-bit integer as 32 lower-case hexadecimal digits. *)
Definition uuid_hex (uuid_int : N) : pystr := rev (hex_digits_le 32 uuid_int).

(** [uuid.uuid4().hex[:8]]. *)
Definition unique_id_of (uuid_int : N) : pystr := take 8 (uuid_hex uuid_int).

Definition is_hex_char (c : N) : bool :=
  ((48 <=? c) && (c <=? 57)) || ((97 <=? c) && (c <=? 102)).

Definition preview_filename_of (document_type : value) (unique_id : pystr) : pystr :=
  lit "preview_" ++ py_str document_type ++ lit "_" ++ unique_id ++ lit ".pdf".

Definition final_filename_of (document_type : value) (unique_id : pystr) : pystr :=
  py_str document_type ++ lit "_" ++ unique_id ++ lit ".pdf".

(** ** RequestNormalizer *)

(** The local variables lines 61 to 77 of [generate_document] bind. *)
Record DocumentRequest := {
  document_type : value;
  buyer_name : value;
  seller_name : value;
  client_name : value;
  property_address : value;
  purchase_price : value;
  closing_date : value;
  party_role : value;
  property_state : value;
  transaction_type : value;
  additional_instructions : value;
  clause_inspection : bool;
  clause_financing : bool;
  clause_appraisal : bool;
  clause_hoa : bool
}.

(** Lines 61 to 77: every field is read with [form_data.get]. *)
Definition extract (form_data : pyobj) : M DocumentRequest :=
  document_type ← get form_data "document_type" (VStr (lit "real_estate_document"));
  buyer_name ← get form_data "buyer_name" (VStr (lit "Buyer"));
  seller_name ← get form_data "seller_name" (VStr (lit "Seller"));
  client_name ← get form_data "client_name" (VStr (lit "Client"));
  property_address ← get form_data "property_address" (VStr (lit "Unknown Address"));
  purchase_price ← get form_data "purchase_price" (VStr (lit "0"));
  closing_date ← get form_data "closing_date" (VStr (lit "TBD"));
  party_role ← get form_data "party_role" (VStr (lit "N/A"));
  property_state ← get form_data "property_state" (VStr (lit "Florida"));
  transaction_type ← get form_data "transaction_type" (VStr (lit "Residential Purchase"));
  additional_instructions ← get form_data "additional_instructions" (VStr (lit ""));
  clause_inspection ← truthy <$> get form_data "clause_inspection" VNone;
  clause_financing ← truthy <$> get form_data "clause_financing" VNone;
  clause_appraisal ← truthy <$> get form_data "clause_appraisal" VNone;
  clause_hoa ← truthy <$> get form_data "clause_hoa" VNone;
  mret {| document_type := document_type; buyer_name := buyer_name;
          seller_name := seller_name; client_name := client_name;
          property_address := property_address;
          purchase_price := purchase_price; closing_date := closing_date;
          party_role := party_role; property_state := property_state;
          transaction_type := transaction_type;
          additional_instructions := additional_instructions;
          clause_inspection := clause_inspection;
          clause_financing := clause_financing;
          clause_appraisal := clause_appraisal; clause_hoa := clause_hoa |}.

(** ** PromptBuilder *)

Definition fmt_bool (b : bool) : pystr := py_str (VBool b).

(** The lines of the f-string of [generate_document], between its opening
    line feed and the line feed that closes each of them. *)
Definition prompt_lines (r : DocumentRequest) : list pystr :=
  [ lit "Generate a professional Florida real estate contract styled after a FAR/BAR agreement. Use legal formatting, numbered sections, and clear, formal language expected in a standard real estate transaction.";
    [];
    lit "Include the following fields:";
    [];
    lit "- Document Type: " ++ py_str (document_type r);
    lit "- Buyer Name: " ++ py_str (buyer_name r);
    lit "- Seller Name: " ++ py_str (seller_name r);
    lit "- Property Address: " ++ py_str (property_address r);
    lit "- Purchase Price: $" ++ py_str (purchase_price r);
    lit "- Closing Date: " ++ py_str (closing_date r);
    lit "- Party Role: " ++ py_str (party_role r);
    lit "- State: " ++ py_str (property_state r);
    lit "- Transaction Type: " ++ py_str (transaction_type r);
    lit "- Optional Clauses:";
    lit "    " ++ bullet ++ lit " Inspection Contingency: " ++ fmt_bool (clause_inspection r);
    lit "    " ++ bullet ++ lit " Financing Contingency: " ++ fmt_bool (clause_financing r);
    lit "    " ++ bullet ++ lit " Appraisal Contingency: " ++ fmt_bool (clause_appraisal r);
    lit "    " ++ bullet ++ lit " HOA Disclosure: " ++ fmt_bool (clause_hoa r);
    lit "- Additional Instructions: " ++ py_str (additional_instructions r);
    [];
    lit "Include all required legal disclosures and a signature section for both buyer and seller. Start with a title header, and mark the preview as 'WATERMARKED' if requested." ].

Definition build_prompt (r : DocumentRequest) : pystr :=
  nl ++ concat ((λ l, l ++ nl) <$> prompt_lines r).

Definition system_message : pystr :=
  lit "You are a real estate document assistant generating legally formatted contracts for Florida.".

Definition chat_request_of (prompt : pystr) : chat_request :=
  {| chat_model := lit "gpt-4-turbo";
     chat_messages := [ (lit "system", system_message); (lit "user", prompt) ];
     max_tokens := 4000 |}.

(** ** PdfRenderer *)

Definition title_style : ParagraphStyle :=
  {| style_name := lit "Title"; style_parent := lit "Heading1";
     fontSize := 16; style_alignment := TA_CENTER;
     textColor := Some (lit "navy"); leading := None |}.

Definition normal_style : ParagraphStyle :=
  {| style_name := lit "Normal"; style_parent := lit "Normal";
     fontSize := 11; style_alignment := TA_JUSTIFY;
     textColor := None; leading := Some 14%Z |}.

Definition marker_text : pystr := lit "<font color='red'>WATERMARKED PREVIEW</font>".

Definition watermark_marker : flowable := Paragraph marker_text title_style.

(** The local variables of [create_pdf] when it returns. The function
    returns [None]; the embedding hands back its frame so that what it
    assembled can be stated. *)
Record frame := {
  doc : SimpleDocTemplate;
  content : list flowable;
  paragraphs : list pystr
}.

Definition in_style (st : ParagraphStyle) (f : flowable) : bool :=
  match f with
  | Paragraph _ st' => bool_decide (st' = st)
  | Spacer _ _ => false
  end.

(** The body paragraphs of a document: the paragraphs in the body style that
    come after the title block, whose sixth and last flowable is the spacer
    under the date line. The marker of a preview is in the title style. *)
Definition body_paragraphs (c : list flowable) : list flowable :=
  List.filter (in_style normal_style) (drop 6 c).

(** The lines of a text that [para.strip()] finds non-empty. *)
Definition non_blank (para : pystr) : bool :=
  match strip para with [] => false | _ => true end.

(** [para.encode('utf-8').decode('utf-8')]. *)
Definition reencode (para : pystr) : option pystr :=
  utf8_encode para ≫= utf8_decode.

Section Pipeline.

(** [str.upper] follows the Unicode case mappings; the development takes it
    as given and only relies on what it does to ASCII text. *)
Variable str_upper : pystr → pystr.
Hypothesis str_upper_ascii : ∀ s, is_ascii s → str_upper s = ascii_upper s.

Definition upper (v : value) : M pystr :=
  match v with
  | VStr s => mret (str_upper s)
  | _ => raise (attribute_error v "upper")
  end.

Definition split (v : value) (sep : N) : M (list pystr) :=
  match v with
  | VStr s => mret (split_on sep s)
  | _ => raise (attribute_error v "split")
  end.

(** [Paragraph(text, style)] parses the markup of [text] when the paragraph
    is made and raises [ValueError] when ReportLab's parser refuses it, as it
    does for an unclosed tag. Which texts it refuses is not in this source:
    [markup_error text style] is the exception of the constructor, if it
    raises. *)
Variable markup_error : pystr → ParagraphStyle → option exn.

Definition new_Paragraph (text : pystr) (style : ParagraphStyle) : M flowable :=
  match markup_error text style with
  | Some e => raise e
  | None => mret (Paragraph text style)
  end.

(** [create_pdf], lines 138 to 156; [today] is what
    [datetime.now().strftime('%B %d, %Y')] returns during the call. *)
Definition create_pdf (text : value) (filepath : pystr)
    (client_name document_type : value) (watermark : bool)
    (today : pystr) : M frame :=
  let doc := {| doc_filename := filepath; pagesize := letter |} in
  title ← upper document_type;
  p ← new_Paragraph title title_style;
  let content := [p; Spacer 1 20] in
  p ← new_Paragraph (lit "Prepared for: " ++ py_str client_name) title_style;
  let content := content ++ [p] in
  let content := content ++ [Spacer 1 20] in
  p ← new_Paragraph (lit "Date: " ++ today) normal_style;
  let content := content ++ [p] in
  let content := content ++ [Spacer 1 20] in
  content ← (if watermark
             then p ← new_Paragraph marker_text title_style;
                  mret ((content ++ [p]) ++ [Spacer 1 20])
             else mret content);
  paragraphs ← split text LF;
  mret {| doc := doc; content := content; paragraphs := paragraphs |}.

(** ** The collaborators of one request *)

Record collaborators := {
  (** [uuid.uuid4().int] *)
  uuid4_int : N;
  (** [os.getcwd()] when the module was loaded *)
  getcwd : pystr;
  (** [client.chat.completions.create]: the [message.content] of each of
      the choices of the response, or the exception the call raises *)
  chat_completions_create : chat_request → exn + list value;
  (** [datetime.now().strftime('%B %d, %Y')] during the first and during
      the second call of [create_pdf] *)
  today_preview : pystr;
  today_final : pystr;
  (** [stripe.checkout.Session.create]: the [id] of the session, or the
      exception the call raises *)
  checkout_session_create : session_params → exn + value
}.

Variable sv : collaborators.

(** The outcome of a call that leaves no event, such as [request.json]. *)
Definition lift {A} (r : exn + A) : M A := ([], r).

(** [response.choices[0]] *)
Definition first_choice (choices : list value) : M value :=
  match choices with
  | c :: _ => mret c
  | [] => raise (Exn IndexError (lit "list index out of range"))
  end.

(** [DOCUMENT_TYPES.get(document_type, "Real Estate Document")] *)
Definition document_title (document_type : value) : M value :=
  match document_type with
  | VStr s => mret (VStr (default (lit "Real Estate Document") (DOCUMENT_TYPES !! s)))
  | VOther _ _ _ false => raise (unhashable document_type)
  | _ => mret (VStr (lit "Real Estate Document"))
  end.

(** ** The handler of [/generate-document] *)

(** The local variables of [generate_document] when its [try] block
    reaches the [return]. *)
Record generation := {
  fields : DocumentRequest;
  unique_id : pystr;
  preview_filename : pystr;
  final_filename : pystr;
  prompt : pystr;
  document_text : value;
  preview_path : pystr;
  final_path : pystr;
  preview : frame;
  final : frame
}.

(** The [try] block of [generate_document], lines 54 to 126. *)
Definition generate (req : request) : M generation :=
  form_data ← (if is_json req then lift (get_json req)
               else mret (OMulti (form req)));
  r ← extract form_data;
  let unique_id := unique_id_of (uuid4_int sv) in
  let preview_filename := preview_filename_of (document_type r) unique_id in
  let final_filename := final_filename_of (document_type r) unique_id in
  let prompt := build_prompt r in
  choices ← call (EvChatCompletion (chat_request_of prompt))
                 (chat_completions_create sv (chat_request_of prompt));
  document_text ← first_choice choices;
  let preview_path := path_join (DOWNLOAD_FOLDER (getcwd sv)) preview_filename in
  let final_path := path_join (DOWNLOAD_FOLDER (getcwd sv)) final_filename in
  title ← document_title (document_type r);
  preview ← create_pdf document_text preview_path (client_name r) title
                       true (today_preview sv);
  title ← document_title (document_type r);
  final ← create_pdf document_text final_path (client_name r) title
                     false (today_final sv);
  mret {| fields := r; unique_id := unique_id;
          preview_filename := preview_filename;
          final_filename := final_filename; prompt := prompt;
          document_text := document_text; preview_path := preview_path;
          final_path := final_path; preview := preview; final := final |}.

(** Lines 128 to 132. *)
Definition generate_success (g : generation) : response :=
  jsonify [ ("success", VBool true);
            ("preview_url", VStr (lit "/download/" ++ preview_filename g));
            ("final_filename", VStr (final_filename g)) ] 200.

(** Line 136. *)
Definition generate_failure (e : exn) : response :=
  jsonify [ ("error", VStr (lit "Failed to generate document: " ++ exn_str e)) ] 500.

Definition generate_document (req : request) : M response :=
  try_except
    (g ← generate req; mret (generate_success g))
    (λ e, _ ← emit (EvLogError (lit "Error generating document: " ++ exn_str e));
          mret (generate_failure e)).

(** ** The handler of [/create-checkout-session] *)

(** The arguments of [stripe.checkout.Session.create], lines 190 to 205. *)
Definition checkout_params (final_filename : value) : session_params :=
  {| payment_method_types := [lit "card"];
     line_items := [ {| currency := lit "usd";
                        product_name := lit "Real Estate Document";
                        unit_amount := 9900;
                        quantity := 1 |} ];
     mode := lit "payment";
     success_url := lit "http://127.0.0.1:5001/download/" ++ py_str final_filename;
     cancel_url := lit "http://127.0.0.1:5001/cancel" |}.

(** Lines 178 to 183: the body as JSON, as a non-empty form, or what
    [request.get_json()] gives. *)
Definition checkout_data (req : request) : M pyobj :=
  if is_json req then lift (get_json req)
  else match form req with
       | _ :: _ => mret (OMulti (form req))
       | [] => lift (get_json req)
       end.

Definition create_checkout_session (req : request) : M response :=
  try_except
    (data ← checkout_data req;
     final_filename ← get data "final_filename" (VStr (lit ""));
     if negb (truthy final_filename)
     then mret (jsonify [ ("error", VStr (lit "Missing document filename")) ] 400)
     else
       session_id ← call (EvCheckoutSession (checkout_params final_filename))
                         (checkout_session_create sv (checkout_params final_filename));
       mret (jsonify [ ("sessionId", session_id) ] 200))
    (λ e, mret (jsonify [ ("error", VStr (exn_str e)) ] 500)).

(** ** Loading the module *)

(** What a global name of the module can be bound to, as far as the
    statements of the module distinguish: an object that is only called or
    passed on (a module, a class, a function, the application), a [str], a
    list of [str], a list of flowables, a style, a document template. *)
Inductive gval :=
| GObject
| GStr (s : pystr)
| GStrs (l : list pystr)
| GFlowables (c : list flowable)
| GStyle (st : ParagraphStyle)
| GDoc (d : SimpleDocTemplate).

(** The names of the [builtins] module, where a name is looked up when the
    globals of the module do not bind it. *)
Variable builtins : gset string.

Definition load_name (g : gmap string gval) (x : string) : M gval :=
  match g !! x with
  | Some v => mret v
  | None => if decide (x ∈ builtins) then mret GObject else raise (name_error x)
  end.

Definition store_all (xs : list string) (g : gmap string gval) : gmap string gval :=
  foldl (λ g x, <[x := GObject]> g) g xs.

(** A statement that evaluates the names [loads], in this order, and binds
    the names [binds], and that neither imports nor calls anything: the
    assignment of a literal, a [def] without decorators (its body is not
    evaluated), the test of an [if]. *)
Definition stmt (loads binds : list string) (g : gmap string gval)
    : M (gmap string gval) :=
  _ ← mapM (load_name g) loads;
  mret (store_all binds g).

(** What an import or a call made while the module is loaded does is not in
    this source: [raised_at line] is the exception that the statement that
    starts at [line] raises from its import or from the calls it makes, if
    it raises; [OpenAI(api_key=...)] of line 32 raises when no key is set. *)
Variable raised_at : Z → option exn.

(** A statement that evaluates the names [loads], imports or calls, and, if
    that returns, binds the names [binds]: an import, an assignment of the
    result of a call, an expression statement, a [def] with decorators. *)
Definition stmt_at (line : Z) (loads binds : list string) (g : gmap string gval)
    : M (gmap string gval) :=
  _ ← mapM (load_name g) loads;
  match raised_at line with
  | Some e => raise e
  | None => mret (store_all binds g)
  end.

Definition wrong_type {A} (what : string) : M A :=
  raise (Exn TypeError (lit what)).

(** The text of the [UnicodeEncodeError] of [para.encode('utf-8')]. *)
Definition surrogate_run (s : pystr) : nat * nat :=
  let before := length (take_while (λ c, negb (is_surrogate c)) s) in
  let run := length (take_while is_surrogate (drop before s)) in
  (before, (before + run - 1)%nat).

Definition encode_error (para : pystr) : exn :=
  let '(i, j) := surrogate_run para in
  Exn UnicodeEncodeError
    (lit "'utf-8' codec can't encode "
     ++ (if (i =? j)%nat
         then lit "character '\ud"
              ++ rev (hex_digits_le 3 (default 0 (para !! i)))
              ++ lit "' in position " ++ str_of_Z (Z.of_nat i)
         else lit "characters in position " ++ str_of_Z (Z.of_nat i)
              ++ lit "-" ++ str_of_Z (Z.of_nat j))
     ++ lit ": surrogates not allowed").

(** Line 160. *)
Definition line_160 (g : gmap string gval) : M (gmap string gval) :=
  para ← load_name g "para";
  match para with
  | GStr p => match reencode p with
              | Some s => mret (<["safe_para" := GStr s]> g)
              | None => raise (encode_error p)
              end
  | _ => wrong_type "encode"
  end.

(** Line 161. *)
Definition line_161 (g : gmap string gval) : M (gmap string gval) :=
  c ← load_name g "content";
  _ ← load_name g "Paragraph";
  s ← load_name g "safe_para";
  st ← load_name g "normal_style";
  match c, s, st with
  | GFlowables l, GStr s, GStyle st =>
      p ← new_Paragraph s st;
      mret (<["content" := GFlowables (l ++ [p])]> g)
  | _, _, _ => wrong_type "append"
  end.

(** Line 162. *)
Definition line_162 (g : gmap string gval) : M (gmap string gval) :=
  c ← load_name g "content";
  _ ← load_name g "Spacer";
  match c with
  | GFlowables l => mret (<["content" := GFlowables (l ++ [Spacer 1 6])]> g)
  | _ => wrong_type "append"
  end.

(** Lines 163 and 164: the clause binds [e], prints, and unbinds [e] when it
    is left. *)
Definition except_clause (g : gmap string gval) (e : exn) : M (gmap string gval) :=
  let g := <["e" := GObject]> g in
  _ ← load_name g "print";
  _ ← load_name g "e";
  _ ← emit (EvPrint (lit "Encoding error: " ++ exn_str e));
  mret (delete "e" g).

(** [try: body except Exception as e: h] on the globals of the module: the
    statements of the body run in order; an exception of one of them hands
    the globals, as the statements before it left them, to the clause; an
    exception of the clause itself is not caught. *)
Fixpoint guarded (body : list (gmap string gval → M (gmap string gval)))
    (h : gmap string gval → exn → M (gmap string gval))
    (g : gmap string gval) : M (gmap string gval) :=
  match body with
  | [] => mret g
  | s :: body' =>
      match s g with
      | (t, inl e) => let '(t', r) := h g e in (t ++ t', r)
      | (t, inr g') => let '(t', r) := guarded body' h g' in (t ++ t', r)
      end
  end.

(** [doc.build(flowables)] is ReportLab's: it lays the flowables out and
    writes the file of the document, taking each flowable off the list as it
    goes, so that the list is empty when it returns. [build_error doc
    flowables] is the exception it raises, if it raises. *)
Variable build_error : SimpleDocTemplate → list flowable → option exn.

Definition build (d : SimpleDocTemplate) (l : list flowable) : M unit :=
  call (EvBuild d l)
       (match build_error d l with Some e => inl e | None => inr tt end).

(** Line 166: [doc.build(content)], which the indentation places inside the
    loop and after the [try] statement. *)
Definition line_166 (g : gmap string gval) : M (gmap string gval) :=
  d ← load_name g "doc";
  c ← load_name g "content";
  match d, c with
  | GDoc d, GFlowables l =>
      _ ← build d l; mret (<["content" := GFlowables []]> g)
  | _, _ => wrong_type "build"
  end.

(** Lines 158 to 166, one turn of the loop with [para] bound. *)
Definition loop_turn (g : gmap string gval) (p : pystr) : M (gmap string gval) :=
  let g := <["para" := GStr p]> g in
  g ← (if non_blank p
       then guarded [line_160; line_161; line_162] except_clause g
       else mret g);
  line_166 g.

(** Line 157: [for para in paragraphs]. *)
Definition for_para_in_paragraphs (g : gmap string gval) : M (gmap string gval) :=
  it ← load_name g "paragraphs";
  match it with
  | GStrs ps => for_each loop_turn g ps
  | _ => wrong_type "object is not iterable"
  end.

(** The globals of a module when its first statement runs. *)
Definition initial_globals : gmap string gval :=
  store_all ["__name__"; "__doc__"; "__package__"; "__loader__"; "__spec__";
             "__file__"; "__builtins__"] ∅.

(** Lines 1 to 156: the imports, the configuration and the first three
    functions. *)
Definition statements_before_loop : list (gmap string gval → M (gmap string gval)) :=
  [ stmt_at 1 [] ["os"]; stmt_at 2 [] ["json"]; stmt_at 3 [] ["uuid"];
    stmt_at 4 [] ["datetime"];
    stmt_at 5 [] ["Flask"; "render_template"; "request"; "jsonify"; "send_from_directory"];
    stmt_at 6 [] ["CORS"]; stmt_at 7 [] ["load_dotenv"]; stmt_at 8 [] ["OpenAI"];
    stmt_at 9 [] ["letter"];
    stmt_at 10 [] ["SimpleDocTemplate"; "Paragraph"; "Spacer"];
    stmt_at 11 [] ["getSampleStyleSheet"; "ParagraphStyle"];
    stmt_at 12 [] ["TA_CENTER"; "TA_JUSTIFY"]; stmt_at 13 [] ["colors"];
    stmt_at 14 [] ["stripe"];
    stmt_at 17 ["load_dotenv"] [];
    stmt_at 20 ["Flask"; "__name__"] ["app"];
    stmt_at 21 ["os"; "app"] [];
    stmt_at 24 ["CORS"; "app"] [];
    stmt_at 27 ["os"; "stripe"] [];
    stmt_at 28 ["os"] ["STRIPE_PUBLISHABLE_KEY"];
    stmt_at 31 ["os"] ["OPENAI_API_KEY"];
    stmt_at 32 ["OpenAI"; "OPENAI_API_KEY"] ["client"];
    stmt_at 35 ["os"; "os"] ["DOWNLOAD_FOLDER"];
    stmt_at 36 ["os"; "DOWNLOAD_FOLDER"] [];
    stmt [] ["DOCUMENT_TYPES"];
    stmt_at 46 ["app"] ["index"];
    stmt_at 50 ["app"] ["generate_document"];
    stmt [] ["create_pdf"] ].

(** Lines 168 to 212; the body of the last [if] runs when the module is the
    main program. *)
Definition statements_after_loop (as_main : bool)
    : list (gmap string gval → M (gmap string gval)) :=
  [ stmt_at 168 ["app"] ["download_file"];
    stmt_at 173 ["app"] ["create_checkout_session"];
    stmt ["__name__"] [] ]
  ++ (if as_main
      then [ stmt_at 211 ["int"; "os"] ["port"]; stmt_at 212 ["app"; "port"] [] ]
      else []).

Definition run (ss : list (gmap string gval → M (gmap string gval)))
    (g : gmap string gval) : M (gmap string gval) :=
  for_each (λ g s, s g) g ss.

Definition load_module (as_main : bool) : M (gmap string gval) :=
  g ← run statements_before_loop initial_globals;
  g ← for_para_in_paragraphs g;
  run (statements_after_loop as_main) g.

(** ** Vocabulary of the statements and concrete requests *)

(** A body from which fields can be read: a JSON object or form data. *)
Definition field_of (data : pyobj) (key : string) : option value :=
  match data with
  | ODict d => d !! lit key
  | OMulti f => VStr <$> multi_get f (lit key)
  | OVal _ => None
  end.

Definition is_mapping (data : pyobj) : bool :=
  match data with OVal _ => false | _ => true end.

Definition hashable (v : value) : bool :=
  match v with VOther _ _ _ h => h | _ => true end.

Definition display_titles : list pystr :=
  [ lit "Real Estate Sales Contract"; lit "Residential Lease Agreement";
    lit "Real Estate Contract Addendum"; lit "Property Condition Disclosure";
    lit "Real Estate Document" ].

(** The number of paragraphs the body of a rendered text is specified to
    have: its non-blank lines that survive the re-encoding. *)
Definition renderable_lines (text : pystr) : list pystr :=
  List.filter (λ p, non_blank p && bool_decide (is_Some (reencode p)))
              (split_on LF text).

Definition globals_at_the_loop : gmap string gval :=
  store_all
    [ "os"; "json"; "uuid"; "datetime"; "Flask"; "render_template"; "request";
      "jsonify"; "send_from_directory"; "CORS"; "load_dotenv"; "OpenAI";
      "letter"; "SimpleDocTemplate"; "Paragraph"; "Spacer";
      "getSampleStyleSheet"; "ParagraphStyle"; "TA_CENTER"; "TA_JUSTIFY";
      "colors"; "stripe"; "app"; "STRIPE_PUBLISHABLE_KEY"; "OPENAI_API_KEY";
      "client"; "DOWNLOAD_FOLDER"; "DOCUMENT_TYPES"; "index";
      "generate_document"; "create_pdf" ]
    initial_globals.

(** The exception that the [try] statement of a turn of the loop catches
    on a line: none on a blank line; on another line the failure of the
    re-encoding or, if that returns, of the paragraph's markup. *)
Definition line_error (p : pystr) : option exn :=
  if non_blank p
  then match reencode p with
       | Some s => markup_error s normal_style
       | None => Some (encode_error p)
       end
  else None.

(** What the [try] statement of a turn adds to [content]: a body paragraph
    and a spacer for a non-blank line on which nothing fails; nothing
    otherwise. *)
Definition body_of_line (p : pystr) : list flowable :=
  if non_blank p
  then match reencode p with
       | Some s => match markup_error s normal_style with
                   | None => [Paragraph s normal_style; Spacer 1 6]
                   | Some _ => []
                   end
       | None => []
       end
  else [].

(** The texts a call of [create_pdf] makes paragraphs of, each with its
    style, in the order of lines 146 to 153. *)
Definition title_block (title : pystr) (client_name : value) (today : pystr)
    (watermark : bool) : list (pystr * ParagraphStyle) :=
  [ (title, title_style);
    (lit "Prepared for: " ++ py_str client_name, title_style);
    (lit "Date: " ++ today, normal_style) ]
  ++ (if watermark then [(marker_text, title_style)] else []).

(** The exception of the first text of a list that [Paragraph] refuses. *)
Fixpoint first_refused (l : list (pystr * ParagraphStyle)) : option exn :=
  match l with
  | [] => None
  | (text, style) :: l' =>
      match markup_error text style with
      | Some e => Some e
      | None => first_refused l'
      end
  end.

(** The display title of a document type: its label in [DOCUMENT_TYPES], or
    the fallback label. *)
Definition label_of (document_type : value) : pystr :=
  match document_type with
  | VStr s => default (lit "Real Estate Document") (DOCUMENT_TYPES !! s)
  | _ => lit "Real Estate Document"
  end.

(** [int(s, 16)] for a string of decimal digits and lower-case letters. *)
Definition hex_value_char (c : N) : option N :=
  if (48 <=? c) && (c <=? 57) then Some (c - 48)
  else if (97 <=? c) && (c <=? 102) then Some (c - 87)
  else None.

Definition hex_value (s : pystr) : option N :=
  foldl (λ acc c, a ← acc; d ← hex_value_char c; Some (16 * a + d)) (Some 0) s.

(** The 32 bits of a UUID that its first eight hexadecimal digits show. *)
Definition top_32_bits (uuid_int : N) : N := (uuid_int / 2 ^ 96) mod 2 ^ 32.

(** What a trace shows of the documents built and of the lines printed. *)
Definition documents_built (t : list event) : list (SimpleDocTemplate * list flowable) :=
  omap (λ ev, match ev with EvBuild d c => Some (d, c) | _ => None end) t.

Definition printed (t : list event) : list pystr :=
  omap (λ ev, match ev with EvPrint msg => Some msg | _ => None end) t.

(** Globals in which the names the loop reads are bound as [create_pdf]
    binds its local variables. *)
Definition bound_as_in_create_pdf (g : gmap string gval)
    (d : SimpleDocTemplate) (c : list flowable) : Prop :=
  g !! "content" = Some (GFlowables c) ∧
  g !! "doc" = Some (GDoc d) ∧
  g !! "normal_style" = Some (GStyle normal_style) ∧
  g !! "Paragraph" = Some GObject ∧
  g !! "Spacer" = Some GObject.

(** The events that write a file: [doc.build(content)] is the only one. *)
Definition writes_file (ev : event) : bool :=
  match ev with EvBuild _ _ => true | _ => false end.

Definition missing_filename : response :=
  jsonify [ ("error", VStr (lit "Missing document filename")) ] 400.

(** What [form_data.get(key, dflt)] leaves in a field: the default when the
    key is absent, the value found when it is present. *)
Definition defaulted (data : pyobj) (key : string) (dflt : pystr) (v : value) : Prop :=
  match field_of data key with
  | None => v = VStr dflt
  | Some x => v = x
  end.

Definition flag_of (data : pyobj) (key : string) (b : bool) : Prop :=
  match field_of data key with
  | None => b = false
  | Some x => b = truthy x
  end.

(** One set of collaborators: a version 4 UUID whose hexadecimal form starts
    with [ab12cd34], a completion of three lines, a payment backend that
    issues a session. *)
Definition sample_services : collaborators :=
  {| uuid4_int := 0xab12cd345e6f4a7b8c9d0123456789ab;
     getcwd := lit "/srv/instantre";
     chat_completions_create := λ _,
       inr [ VStr (lit "RESIDENTIAL LEASE AGREEMENT" ++ nl ++ nl
                   ++ lit "1. PARTIES. This agreement is made between Alice and Bob.") ];
     today_preview := lit "November 03, 2026";
     today_final := lit "November 03, 2026";
     checkout_session_create := λ _, inr (VStr (lit "cs_test_a1B2c3")) |}.

(** One parser of markup: it accepts the markup of the marker and every
    text without a [<], and refuses any other text with the [ValueError] of
    ReportLab, which names the first thirty characters of the text. *)
Definition sample_markup_error (text : pystr) (style : ParagraphStyle) : option exn :=
  if bool_decide (text = marker_text) then None
  else if bool_decide (60 ∈ text)
  then Some (Exn ValueError
               (lit "xml parser error (invalid markup) in paragraph beginning"
                ++ nl ++ lit "'" ++ take 30 text ++ lit "'"))
  else None.

(** A load of the module in which no import and no call raises, one in
    which no API key is set, and builds that return. *)
Definition no_startup_error : Z → option exn := λ _, None.

Definition keyless_startup : Z → option exn := λ line,
  if (line =? 32)%Z
  then Some (Exn BackendError
               (lit "The api_key client option must be set either by passing api_key to the client or by setting the OPENAI_API_KEY environment variable"))
  else None.

Definition no_build_error : SimpleDocTemplate → list flowable → option exn :=
  λ _ _, None.

(** The scenario of the specification, as a JSON body. *)
Definition lease_request : request :=
  {| is_json := true;
     get_json := inr (ODict (list_to_map
       [ (lit "document_type", VStr (lit "lease_agreement"));
         (lit "buyer_name", VStr (lit "Alice"));
         (lit "seller_name", VStr (lit "Bob"));
         (lit "property_address", VStr (lit "123 Main St")) ]));
     form := [] |}.

(** The same scenario for a client whose name holds an unclosed tag. *)
Definition bold_client_request : request :=
  {| is_json := true;
     get_json := inr (ODict (list_to_map
       [ (lit "document_type", VStr (lit "lease_agreement"));
         (lit "client_name", VStr (lit "<b>Carol")) ]));
     form := [] |}.

(** A form post whose document type is not one of the four known ones. *)
Definition deed_request : request :=
  {| is_json := false;
     get_json := inr (OVal VNone);
     form := [ (lit "document_type", lit "quitclaim_deed");
               (lit "client_name", lit "Carol") ] |}.

(** A JSON body in which the buyer name is present and empty. *)
Definition empty_buyer : pyobj :=
  ODict (list_to_map [ (lit "buyer_name", VStr (lit "")) ]).

(** Checkout requests: with a filename, with an empty JSON object, with no
    body at all (where [get_json] returns [None] in the older releases of
    Flask and raises in the newer ones), and with a JSON body that is not an
    object. *)
Definition paid_request : request :=
  {| is_json := true;
     get_json := inr (ODict (list_to_map
       [ (lit "final_filename", VStr (lit "sales_contract_ab12cd34.pdf")) ]));
     form := [] |}.

Definition empty_object_request : request :=
  {| is_json := true; get_json := inr (ODict ∅); form := [] |}.

Definition bodyless_request : request :=
  {| is_json := false; get_json := inr (OVal VNone); form := [] |}.

Definition bodyless_request_raising : request :=
  {| is_json := false;
     get_json := inl (Exn HTTPException
       (lit "415 Unsupported Media Type: Did not attempt to load JSON data because the request Content-Type was not 'application/json'."));
     form := [] |}.

Definition json_null_request : request :=
  {| is_json := true; get_json := inr (OVal VNone); form := [] |}.

(** Names of the [builtins] module that the module's code uses. *)
Definition builtin_names : gset string :=
  list_to_set ["bool"; "int"; "print"; "str"; "Exception"].

(** The defaults the specification lists for the fields of a request. *)
Definition listed_defaults : list pystr :=
  [ lit "Buyer"; lit "Seller"; lit "0"; lit "TBD"; lit "N/A"; lit "Florida";
    lit "Residential Purchase"; lit "" ].

(** ** Vocabulary of the further properties *)

(** [sep.join(l)] for a one-character separator. *)
Fixpoint join_with (sep : N) (l : list pystr) : pystr :=
  match l with
  | [] => []
  | [w] => w
  | w :: ws => w ++ sep :: join_with sep ws
  end.

(** The number of occurrences of a character: [s.count(c)]. *)
Definition count_char (c : N) (s : pystr) : nat :=
  length (List.filter (λ x, x =? c) s).

(** The body a handler of [/generate-document] reads, lines 55 to 58. *)
Definition request_body (req : request) : exn + pyobj :=
  if is_json req then get_json req else inr (OMulti (form req)).

(** A JSON body whose document type starts with a slash. *)
Definition absolute_type_request : request :=
  {| is_json := true;
     get_json := inr (ODict (list_to_map
       [ (lit "document_type", VStr (lit "/tmp/lease")) ]));
     form := [] |}.

(** What a trace shows of the collaborators: the requests sent to the
    completion backend and those sent to the payment backend. *)
Definition chat_requests (t : list event) : list chat_request :=
  omap (λ ev, match ev with EvChatCompletion r => Some r | _ => None end) t.

Definition session_requests (t : list event) : list session_params :=
  omap (λ ev, match ev with EvCheckoutSession p => Some p | _ => None end) t.

(** A JSON body whose document type is an array. *)
Definition array_type_request : request :=
  {| is_json := true;
     get_json := inr (ODict (list_to_map
       [ (lit "document_type",
          VOther (lit "list") (lit "['lease', 'addendum']") true false) ]));
     form := [] |}.

(** A completion backend whose only choice has no text. *)
Definition silent_services : collaborators :=
  {| uuid4_int := 0xab12cd345e6f4a7b8c9d0123456789ab;
     getcwd := lit "/srv/instantre";
     chat_completions_create := λ _, inr [ VNone ];
     today_preview := lit "November 03, 2026";
     today_final := lit "November 03, 2026";
     checkout_session_create := λ _, inr (VStr (lit "cs_test_a1B2c3")) |}.

(** Globals as they would be if the local variables of a call of
    [create_pdf] on the text [Deed] followed by an empty and a blank line
    were global: the state in which the loop could run. *)
Definition globals_with_a_frame : gmap string gval :=
  <["paragraphs" := GStrs (split_on LF (lit "Deed" ++ nl ++ nl ++ lit "  "))]>
    (<["content" := GFlowables [Spacer 1 20]]>
       (<["doc" := GDoc {| doc_filename := lit "/srv/instantre/static/downloads/deed_ab12cd34.pdf";
                           pagesize := letter |}]>
          (<["normal_style" := GStyle normal_style]> globals_at_the_loop))).

(** The checkout request for the final copy of the lease scenario. *)
Definition lease_checkout_request : request :=
  {| is_json := false;
     get_json := inr (OVal VNone);
     form := [ (lit "final_filename", lit "lease_agreement_ab12cd34.pdf") ] |}.

(** * Properties *)

(** ** The monad *)

Lemma bind_inr {A B} (m : M A) (f : A → M B) t b :
  m ≫= f = (t, inr b) →
  ∃ t1 a t2, m = (t1, inr a) ∧ f a = (t2, inr b) ∧ t = t1 ++ t2.
Proof.
  destruct m as [t1 [e | a]]; cbn; [discriminate |].
  destruct (f a) as [t2 r] eqn:Hf. intros [= <- ->]. eauto 6.
Qed.

Lemma mret_inr {A} (a b : A) t : (mret a : M A) = (t, inr b) → t = [] ∧ a = b.
Proof. by intros [= <- <-]. Qed.

Lemma bind_mret {A B} (a : A) (f : A → M B) : mret a ≫= f = f a.
Proof. cbn. by destruct (f a). Qed.

Lemma bind_raise {A B} (e : exn) (f : A → M B) : raise e ≫= f = raise e.
Proof. reflexivity. Qed.

Lemma try_except_raise {A} (e : exn) (h : exn → M A) : try_except (raise e) h = h e.
Proof. cbn. by destruct (h e). Qed.

Lemma bind_trace_Forall {A B} (P : event → Prop) (m : M A) (f : A → M B) :
  Forall P (trace m) → (∀ a, Forall P (trace (f a))) →
  Forall P (trace (m ≫= f)).
Proof.
  destruct m as [t1 [e | a]]; cbn; [done |]. intros H1 Hf.
  specialize (Hf a). destruct (f a) as [t2 r]. cbn in Hf.
  by apply Forall_app.
Qed.

Lemma try_except_trace_Forall {A} (P : event → Prop) (m : M A) (h : exn → M A) :
  Forall P (trace m) → (∀ e, Forall P (trace (h e))) →
  Forall P (trace (try_except m h)).
Proof.
  destruct m as [t1 [e | a]]; cbn; [| done]. intros H1 Hh.
  specialize (Hh e). destruct (h e) as [t2 r]. cbn in Hh.
  by apply Forall_app.
Qed.

(** ** Strings *)

Lemma substring_refl s : substring s s.
Proof. exists [], []. by rewrite app_nil_r. Qed.

Lemma substring_app_r s a b : substring s b → substring s (a ++ b).
Proof.
  intros (pre & post & ->). exists (a ++ pre), post. by rewrite <- !app_assoc.
Qed.

Lemma substring_app_l s a b : substring s a → substring s (a ++ b).
Proof.
  intros (pre & post & ->). exists pre, (post ++ b). by rewrite <- !app_assoc.
Qed.

Lemma substring_concat s l (ls : list pystr) :
  l ∈ ls → substring s l → substring s (concat ls).
Proof.
  intros Hin Hs. apply list_elem_of_split in Hin as (l1 & l2 & ->).
  rewrite concat_app. cbn. by apply substring_app_r, substring_app_l.
Qed.

Lemma contains_substring sub s : contains sub s = true → substring sub s.
Proof.
  assert (Hsw : ∀ p t, starts_with p t = true → ∃ post, t = p ++ post).
  { induction p as [| a p IH]; intros [| b t]; cbn; try discriminate; eauto.
    intros [->%N.eqb_eq [post ->]%IH]%andb_prop. eauto. }
  induction s as [| c s IH]; cbn.
  - rewrite orb_false_r. intros [post ->]%Hsw. by exists [], post.
  - intros [[post ->]%Hsw | (pre & post & ->)%IH]%orb_prop.
    + by exists [], post.
    + by exists (c :: pre), post.
Qed.

(** ** UTF-8 *)

Local Ltac split_tests :=
  repeat match goal with
    | |- context [N.ltb ?a ?b] => destruct (N.ltb_spec a b); try lia
    | |- context [N.leb ?a ?b] => destruct (N.leb_spec a b); try lia
    end.

Local Ltac euclid a q r :=
  let E := fresh "E" in let R := fresh "R" in
  pose proof (N.div_mod a 64 ltac:(discriminate)) as E;
  pose proof (N.mod_lt a 64 ltac:(discriminate)) as R;
  set (q := a / 64) in *; set (r := a mod 64) in *;
  clearbody q r.

Lemma utf8_decode_encode_char c bs rest fuel :
  utf8_encode_char c = Some bs →
  utf8_decode_fuel (S fuel) (bs ++ rest) = cons c <$> utf8_decode_fuel fuel rest.
Proof.
  unfold utf8_encode_char, is_surrogate.
  replace (c / 262144) with (c / 64 / 64 / 64) by (by rewrite !N.Div0.div_div).
  replace (c / 4096) with (c / 64 / 64) by (by rewrite !N.Div0.div_div).
  destruct (N.ltb_spec c 128).
  { intros [= <-]. cbn [app utf8_decode_fuel]. by split_tests. }
  euclid c q1 r1.
  destruct (N.ltb_spec c 2048).
  { intros [= <-]. cbn [app utf8_decode_fuel]. unfold is_cont.
    replace ((192 + q1 - 192) * 64 + (128 + r1 - 128)) with c by lia.
    split_tests. done. }
  euclid q1 q2 r2.
  destruct (N.leb_spec 55296 c), (N.leb_spec c 57343); cbn [andb]; try discriminate.
  all: destruct (N.ltb_spec c 65536).
  all: try (intros [= <-]; cbn [app utf8_decode_fuel]; unfold is_cont, is_surrogate;
       replace ((224 + q2 - 224) * 4096 + (128 + r2 - 128) * 64
                + (128 + r1 - 128)) with c by lia;
       split_tests; done).
  all: destruct (N.ltb_spec c 1114112); try discriminate.
  all: euclid q2 q3 r3.
  all: intros [= <-]; cbn [app utf8_decode_fuel]; unfold is_cont;
       replace ((240 + q3 - 240) * 262144 + (128 + r3 - 128) * 4096
                + (128 + r2 - 128) * 64 + (128 + r1 - 128)) with c by lia;
       split_tests; done.
Qed.

Lemma utf8_encode_char_nonempty c bs : utf8_encode_char c = Some bs → bs ≠ [].
Proof.
  unfold utf8_encode_char.
  repeat match goal with |- context [if ?b then _ else _] => destruct b end;
    by intros [= <-].
Qed.

Lemma utf8_encode_length s bs :
  utf8_encode s = Some bs → (length s ≤ length bs)%nat.
Proof.
  revert bs. induction s as [| c s IH]; intros bs; cbn; [lia |].
  destruct (utf8_encode_char c) as [b |] eqn:Hc; [| discriminate].
  destruct (utf8_encode s) as [rest |]; [| discriminate].
  cbn. intros [= <-]. rewrite length_app. specialize (IH rest eq_refl).
  apply utf8_encode_char_nonempty in Hc. destruct b; [done |]. cbn. lia.
Qed.

Lemma utf8_decode_fuel_encode s bs fuel :
  utf8_encode s = Some bs → (length s ≤ fuel)%nat →
  utf8_decode_fuel fuel bs = Some s.
Proof.
  revert bs fuel. induction s as [| c s IH]; intros bs fuel; cbn.
  - intros [= <-] _. by destruct fuel.
  - destruct (utf8_encode_char c) as [b |] eqn:Hc; [| discriminate].
    destruct (utf8_encode s) as [rest |]; [| discriminate].
    cbn. intros [= <-] Hfuel. destruct fuel as [| fuel]; [lia |].
    rewrite (utf8_decode_encode_char _ _ _ _ Hc), (IH rest fuel eq_refl) by lia.
    done.
Qed.

(** A string that can be encoded is decoded to itself, so the re-encoding
    of a paragraph either fails or changes nothing. *)
Lemma reencode_encodable s bs : utf8_encode s = Some bs → reencode s = Some s.
Proof.
  intros H. unfold reencode. rewrite H. cbn. unfold utf8_decode.
  apply utf8_decode_fuel_encode; [done |]. by apply utf8_encode_length.
Qed.

(** It fails exactly on the strings that hold a surrogate (or a value that
    is no code point). *)
Lemma reencode_spec s :
  reencode s
  = if forallb (λ c, negb (is_surrogate c) && (c <? 1114112)) s
    then Some s else None.
Proof.
  destruct (utf8_encode s) as [bs |] eqn:He.
  - rewrite (reencode_encodable _ _ He).
    revert bs He. induction s as [| c s IH]; intros bs; cbn; [done |].
    destruct (utf8_encode_char c) as [b |] eqn:Hc; [| discriminate].
    destruct (utf8_encode s) as [rest |]; [| discriminate]. intros _.
    specialize (IH rest eq_refl).
    destruct (forallb _ s); [| discriminate]. rewrite andb_true_r.
    revert Hc. unfold utf8_encode_char, is_surrogate.
    split_tests; cbn; try discriminate; done.
  - unfold reencode. rewrite He. cbn.
    induction s as [| c s IH]; cbn in *; [discriminate |].
    destruct (utf8_encode_char c) as [b |] eqn:Hc.
    + destruct (utf8_encode s) as [rest |]; [discriminate |].
      specialize (IH eq_refl). destruct (forallb _ s); [discriminate |].
      by rewrite andb_false_r.
    + revert Hc. unfold utf8_encode_char, is_surrogate.
      split_tests; cbn; try discriminate; done.
Qed.

Lemma prompt_line_substring (r : DocumentRequest) s l :
  l ∈ prompt_lines r → substring s l → substring s (build_prompt r).
Proof.
  intros Hin Hs. unfold build_prompt. apply substring_app_r.
  apply substring_concat with (l := l ++ nl).
  - apply list_elem_of_fmap. eauto.
  - by apply substring_app_l.
Qed.

(** ** PromptBuilder *)

Local Tactic Notation "field_at" constr(n) integer(k) :=
  eapply prompt_line_substring;
  [ apply (list_elem_of_lookup_2 _ n); reflexivity
  | do k apply substring_app_r; apply substring_refl ].

(** C8: for every normalized request, the prompt contains the value of each
    of its fields as a substring, in the form the f-string renders it: the
    document type, the buyer and seller names, the property address, the
    purchase price, the closing date, the party role, the state, the
    transaction type, the additional instructions, and [True] or [False] for
    each of the four optional clauses. A field that is a [str] is contained
    as it is. *)
Theorem prompt_contains_every_field (r : DocumentRequest) :
  substring (py_str (document_type r)) (build_prompt r) ∧
  substring (py_str (buyer_name r)) (build_prompt r) ∧
  substring (py_str (seller_name r)) (build_prompt r) ∧
  substring (py_str (property_address r)) (build_prompt r) ∧
  substring (py_str (purchase_price r)) (build_prompt r) ∧
  substring (py_str (closing_date r)) (build_prompt r) ∧
  substring (py_str (party_role r)) (build_prompt r) ∧
  substring (py_str (property_state r)) (build_prompt r) ∧
  substring (py_str (transaction_type r)) (build_prompt r) ∧
  substring (py_str (additional_instructions r)) (build_prompt r) ∧
  substring (py_str (VBool (clause_inspection r))) (build_prompt r) ∧
  substring (py_str (VBool (clause_financing r))) (build_prompt r) ∧
  substring (py_str (VBool (clause_appraisal r))) (build_prompt r) ∧
  substring (py_str (VBool (clause_hoa r))) (build_prompt r) ∧
  (∀ s, VStr s ∈ [ document_type r; buyer_name r; seller_name r;
                   property_address r; purchase_price r; closing_date r;
                   party_role r; property_state r; transaction_type r;
                   additional_instructions r ] →
        substring s (build_prompt r)).
Proof.
  assert (H4 : substring (py_str (document_type r)) (build_prompt r)) by field_at 4%nat 1.
  assert (H5 : substring (py_str (buyer_name r)) (build_prompt r)) by field_at 5%nat 1.
  assert (H6 : substring (py_str (seller_name r)) (build_prompt r)) by field_at 6%nat 1.
  assert (H7 : substring (py_str (property_address r)) (build_prompt r)) by field_at 7%nat 1.
  assert (H8 : substring (py_str (purchase_price r)) (build_prompt r)) by field_at 8%nat 1.
  assert (H9 : substring (py_str (closing_date r)) (build_prompt r)) by field_at 9%nat 1.
  assert (H10 : substring (py_str (party_role r)) (build_prompt r)) by field_at 10%nat 1.
  assert (H11 : substring (py_str (property_state r)) (build_prompt r)) by field_at 11%nat 1.
  assert (H12 : substring (py_str (transaction_type r)) (build_prompt r)) by field_at 12%nat 1.
  assert (H18 : substring (py_str (additional_instructions r)) (build_prompt r)) by field_at 18%nat 1.
  repeat split; try assumption.
  - field_at 14%nat 3.
  - field_at 15%nat 3.
  - field_at 16%nat 3.
  - field_at 17%nat 3.
  - intros s Hs. rewrite !elem_of_cons in Hs.
    destruct Hs as [Hs | [Hs | [Hs | [Hs | [Hs | [Hs | [Hs | [Hs | [Hs | [Hs | Hs]]]]]]]]]];
      [ rewrite <- Hs in H4 | rewrite <- Hs in H5 | rewrite <- Hs in H6
      | rewrite <- Hs in H7 | rewrite <- Hs in H8 | rewrite <- Hs in H9
      | rewrite <- Hs in H10 | rewrite <- Hs in H11 | rewrite <- Hs in H12
      | rewrite <- Hs in H18 | by apply elem_of_nil in Hs ]; assumption.
Qed.

(** ** Inversion of the handlers *)

Lemma get_mapping data key dflt :
  is_mapping data = true → get data key dflt = mret (default dflt (field_of data key)).
Proof. by destruct data. Qed.

Lemma extract_mapping data :
  is_mapping data = true →
  extract data =
  mret {| document_type := default (VStr (lit "real_estate_document")) (field_of data "document_type");
          buyer_name := default (VStr (lit "Buyer")) (field_of data "buyer_name");
          seller_name := default (VStr (lit "Seller")) (field_of data "seller_name");
          client_name := default (VStr (lit "Client")) (field_of data "client_name");
          property_address := default (VStr (lit "Unknown Address")) (field_of data "property_address");
          purchase_price := default (VStr (lit "0")) (field_of data "purchase_price");
          closing_date := default (VStr (lit "TBD")) (field_of data "closing_date");
          party_role := default (VStr (lit "N/A")) (field_of data "party_role");
          property_state := default (VStr (lit "Florida")) (field_of data "property_state");
          transaction_type := default (VStr (lit "Residential Purchase")) (field_of data "transaction_type");
          additional_instructions := default (VStr (lit "")) (field_of data "additional_instructions");
          clause_inspection := truthy (default VNone (field_of data "clause_inspection"));
          clause_financing := truthy (default VNone (field_of data "clause_financing"));
          clause_appraisal := truthy (default VNone (field_of data "clause_appraisal"));
          clause_hoa := truthy (default VNone (field_of data "clause_hoa")) |}.
Proof. intros Hm. unfold extract. by rewrite !(get_mapping _ _ _ Hm). Qed.

Lemma extract_inr data t r :
  extract data = (t, inr r) → t = [] ∧ is_mapping data = true.
Proof. destruct data; [| | discriminate]; rewrite extract_mapping by done; by intros [= <- <-]. Qed.

(** What a call of [create_pdf] with a title does: it fails with the
    exception of the first paragraph of the title block that is refused;
    otherwise it splits the text, or fails on a text that is no [str]. *)
Lemma create_pdf_titled text filepath client ttl watermark today :
  create_pdf text filepath client (VStr ttl) watermark today
  = match first_refused (title_block (str_upper ttl) client today watermark) with
    | Some e => raise e
    | None =>
        match text with
        | VStr s =>
            mret {| doc := {| doc_filename := filepath; pagesize := letter |};
                    content :=
                      [ Paragraph (str_upper ttl) title_style; Spacer 1 20;
                        Paragraph (lit "Prepared for: " ++ py_str client) title_style;
                        Spacer 1 20;
                        Paragraph (lit "Date: " ++ today) normal_style; Spacer 1 20 ]
                      ++ (if watermark then [watermark_marker; Spacer 1 20] else []);
                    paragraphs := split_on LF s |}
        | _ => raise (attribute_error text "split")
        end
    end.
Proof.
  unfold create_pdf, title_block, new_Paragraph. cbn [upper app first_refused].
  rewrite bind_mret.
  destruct (markup_error (str_upper ttl) title_style); [done |]. rewrite bind_mret.
  destruct (markup_error (lit "Prepared for: " ++ py_str client) title_style); [done |].
  rewrite bind_mret.
  destruct (markup_error (lit "Date: " ++ today) normal_style); [done |].
  rewrite bind_mret.
  destruct watermark; cbn [app first_refused].
  - destruct (markup_error marker_text title_style); [done |].
    rewrite !bind_mret. by destruct text.
  - rewrite bind_mret. by destruct text.
Qed.

Lemma create_pdf_trace text filepath client title watermark today :
  trace (create_pdf text filepath client title watermark today) = [].
Proof.
  destruct title; try done. rewrite create_pdf_titled.
  destruct (first_refused _); [done |]. by destruct text.
Qed.

Lemma create_pdf_inr text filepath client title watermark today t f :
  create_pdf text filepath client title watermark today = (t, inr f) →
  ∃ s ttl,
    text = VStr s ∧ title = VStr ttl ∧ t = [] ∧
    doc f = {| doc_filename := filepath; pagesize := letter |} ∧
    paragraphs f = split_on LF s ∧
    content f =
      [ Paragraph (str_upper ttl) title_style; Spacer 1 20;
        Paragraph (lit "Prepared for: " ++ py_str client) title_style; Spacer 1 20;
        Paragraph (lit "Date: " ++ today) normal_style; Spacer 1 20 ]
      ++ (if watermark then [watermark_marker; Spacer 1 20] else []).
Proof.
  destruct title as [| | | ttl |]; try discriminate. rewrite create_pdf_titled.
  destruct (first_refused _); [discriminate |].
  destruct text; try discriminate. intros [= <- <-].
  eexists _, _. repeat split.
Qed.

Lemma create_pdf_inr_accepted text filepath client ttl watermark today t f :
  create_pdf text filepath client (VStr ttl) watermark today = (t, inr f) →
  first_refused (title_block (str_upper ttl) client today watermark) = None.
Proof. rewrite create_pdf_titled. by destruct (first_refused _). Qed.

Lemma document_title_inr dt t v :
  document_title dt = (t, inr v) →
  t = [] ∧
  v = VStr (label_of dt).
Proof. destruct dt as [| | | |? ? ? []]; cbn; try discriminate; by intros [= <- <-]. Qed.

Lemma document_title_hashable dt :
  hashable dt = true → document_title dt = mret (VStr (label_of dt)).
Proof. by destruct dt as [| | | |? ? ? []]. Qed.

Lemma generate_inr req t g :
  generate req = (t, inr g) →
  ∃ data choices title,
    (if is_json req then get_json req = inr data else data = OMulti (form req)) ∧
    extract data = mret (fields g) ∧
    unique_id g = unique_id_of (uuid4_int sv) ∧
    preview_filename g = preview_filename_of (document_type (fields g)) (unique_id g) ∧
    final_filename g = final_filename_of (document_type (fields g)) (unique_id g) ∧
    prompt g = build_prompt (fields g) ∧
    chat_completions_create sv (chat_request_of (prompt g)) = inr choices ∧
    head choices = Some (document_text g) ∧
    preview_path g = path_join (DOWNLOAD_FOLDER (getcwd sv)) (preview_filename g) ∧
    final_path g = path_join (DOWNLOAD_FOLDER (getcwd sv)) (final_filename g) ∧
    document_title (document_type (fields g)) = mret title ∧
    create_pdf (document_text g) (preview_path g) (client_name (fields g))
               title true (today_preview sv) = mret (preview g) ∧
    create_pdf (document_text g) (final_path g) (client_name (fields g))
               title false (today_final sv) = mret (final g) ∧
    t = [EvChatCompletion (chat_request_of (prompt g))].
Proof.
  unfold generate. intros H.
  apply bind_inr in H as (t1 & data & t2 & Hdata & H & ->).
  apply bind_inr in H as (t3 & r & t4 & Hr & H & ->).
  apply bind_inr in H as (t5 & choices & t6 & Hc & H & ->).
  apply bind_inr in H as (t7 & text & t8 & Htext & H & ->).
  apply bind_inr in H as (t9 & title & t10 & Htitle & H & ->).
  apply bind_inr in H as (t11 & pv & t12 & Hpv & H & ->).
  apply bind_inr in H as (t13 & title' & t14 & Htitle' & H & ->).
  apply bind_inr in H as (t15 & fn & t16 & Hfn & H & ->).
  apply mret_inr in H as [-> <-]. cbn [fields unique_id preview_filename
    final_filename prompt document_text preview_path final_path preview final].
  destruct (extract_inr _ _ _ Hr) as [-> _].
  destruct (document_title_inr _ _ _ Htitle) as [-> Ht].
  destruct (document_title_inr _ _ _ Htitle') as [-> Ht'].
  assert (title' = title) as -> by congruence.
  destruct (create_pdf_inr _ _ _ _ _ _ _ _ Hpv) as (? & ? & _ & _ & -> & _).
  destruct (create_pdf_inr _ _ _ _ _ _ _ _ Hfn) as (? & ? & _ & _ & -> & _).
  unfold call, emit in Hc. cbn in Hc.
  destruct (chat_completions_create sv _) as [e | cs] eqn:Hcs; [discriminate |].
  injection Hc as <- <-.
  destruct cs as [| c cs']; cbn in Htext; [discriminate |].
  injection Htext as <- <-.
  exists data, (c :: cs'), title. repeat split; try done.
  - destruct (is_json req); [| by apply mret_inr in Hdata as [_ <-]].
    unfold lift in Hdata. by injection Hdata as _ ->.
  - assert (t1 = []) as ->.
    { destruct (is_json req); [by injection Hdata as <- | by apply mret_inr in Hdata as [-> _]]. }
    by rewrite !app_nil_r.
Qed.


Lemma generate_reads_the_body req :
  (if is_json req then lift (get_json req) else mret (OMulti (form req)))
  = (lift (request_body req) : M pyobj).
Proof. unfold request_body. by destruct (is_json req). Qed.

Local Ltac enter_generate Hbody :=
  unfold generate; rewrite generate_reads_the_body, Hbody.

Local Ltac call_backend Hr Hc :=
  change (lift (inr ?d)) with (mret d : M pyobj);
  rewrite bind_mret, Hr, bind_mret; unfold call, emit; rewrite Hc.

(** What the [try] block does once the completion backend has answered with
    a first choice, for a document type that can be looked up: the two calls
    of [create_pdf], in this order, decide. *)
Lemma generate_after_the_call req data r c rest :
  request_body req = inr data → extract data = mret r →
  chat_completions_create sv (chat_request_of (build_prompt r)) = inr (c :: rest) →
  hashable (document_type r) = true →
  ∃ o, generate req = ([EvChatCompletion (chat_request_of (build_prompt r))], o) ∧
    match first_refused (title_block (str_upper (label_of (document_type r)))
                           (client_name r) (today_preview sv) true) with
    | Some e => o = inl e
    | None =>
        match c with
        | VStr _ =>
            match first_refused (title_block (str_upper (label_of (document_type r)))
                                   (client_name r) (today_final sv) false) with
            | Some e => o = inl e
            | None => ∃ g, o = inr g ∧ fields g = r ∧ document_text g = c
            end
        | _ => o = inl (attribute_error c "split")
        end
    end.
Proof.
  intros Hbody Hr Hc Hh. enter_generate Hbody. call_backend Hr Hc.
  pose proof (document_title_hashable _ Hh) as Ht.
  cbn -[build_prompt path_join DOWNLOAD_FOLDER preview_filename_of
        final_filename_of unique_id_of document_title create_pdf
        title_block first_refused].
  rewrite Ht, bind_mret, create_pdf_titled.
  destruct (first_refused (title_block _ _ (today_preview sv) true)) as [e |].
  { eexists. split; [reflexivity | done]. }
  destruct c; try (eexists; split; [reflexivity | done]).
  rewrite !bind_mret, create_pdf_titled.
  destruct (first_refused (title_block _ _ (today_final sv) false)) as [e |].
  { eexists. split; [reflexivity | done]. }
  rewrite bind_mret.
  eexists. split; [reflexivity |]. eexists. split; [reflexivity |]. done.
Qed.


Lemma extract_trace data : trace (extract data) = [].
Proof.
  destruct data; [| | done]; by rewrite extract_mapping.
Qed.

(** No call of [/generate-document] writes a file. *)
Lemma generate_document_writes_no_file req :
  Forall (λ ev, writes_file ev = false) (trace (generate_document req)).
Proof.
  unfold generate_document. apply try_except_trace_Forall.
  - apply bind_trace_Forall; [| by intros; constructor].
    unfold generate. apply bind_trace_Forall.
    { destruct (is_json req); by constructor. }
    intros data. apply bind_trace_Forall.
    { rewrite extract_trace. constructor. }
    intros r. apply bind_trace_Forall.
    { unfold call, emit. cbn -[build_prompt].
      destruct (chat_completions_create sv (chat_request_of (build_prompt r)));
        by repeat constructor. }
    intros choices. apply bind_trace_Forall.
    { destruct choices; by constructor. }
    intros text. apply bind_trace_Forall.
    { by destruct (document_type r) as [| | | |? ? ? []]; constructor. }
    intros title. apply bind_trace_Forall.
    { rewrite create_pdf_trace. constructor. }
    intros pv. apply bind_trace_Forall.
    { by destruct (document_type r) as [| | | |? ? ? []]; constructor. }
    intros title'. apply bind_trace_Forall.
    { rewrite create_pdf_trace. constructor. }
    intros fn. constructor.
  - intros e. by repeat constructor.
Qed.

(** ** ArtifactNamer *)

Lemma hex_digit_is_hex d : d < 16 → is_hex_char (hex_digit d) = true.
Proof.
  intros Hd. unfold hex_digit, is_hex_char.
  destruct (N.ltb_spec d 10).
  - apply orb_true_intro. left. apply andb_true_intro.
    split; apply N.leb_le; lia.
  - apply orb_true_intro. right. apply andb_true_intro.
    split; apply N.leb_le; lia.
Qed.

Lemma hex_digits_le_length w n : length (hex_digits_le w n) = w.
Proof. revert n. induction w as [| w IH]; intros n; cbn; [done | by rewrite IH]. Qed.

Lemma hex_digits_le_hex w n : Forall (λ c, is_hex_char c = true) (hex_digits_le w n).
Proof.
  revert n. induction w as [| w IH]; intros n; cbn; constructor; [| apply IH].
  apply hex_digit_is_hex, N.mod_lt. done.
Qed.

Lemma unique_id_length n : length (unique_id_of n) = 8%nat.
Proof.
  unfold unique_id_of, uuid_hex.
  rewrite length_take, length_rev, hex_digits_le_length. reflexivity.
Qed.

Lemma unique_id_hex n : Forall (λ c, is_hex_char c = true) (unique_id_of n).
Proof.
  unfold unique_id_of, uuid_hex. apply Forall_take, Forall_rev, hex_digits_le_hex.
Qed.

Lemma hex_digit_inj d1 d2 :
  d1 < 16 → d2 < 16 → hex_digit d1 = hex_digit d2 → d1 = d2.
Proof.
  unfold hex_digit. intros H1 H2.
  destruct (N.ltb_spec d1 10), (N.ltb_spec d2 10); lia.
Qed.

Lemma hex_digits_le_eq w a b :
  hex_digits_le w a = hex_digits_le w b ↔
  a mod 16 ^ N.of_nat w = b mod 16 ^ N.of_nat w.
Proof.
  revert a b. induction w as [| w IH]; intros a b.
  - cbn. by rewrite !N.mod_1_r.
  - rewrite Nat2N.inj_succ, N.pow_succ_r', !N.Div0.mod_mul_r. cbn [hex_digits_le].
    pose proof (N.mod_lt a 16 ltac:(discriminate)) as Ha.
    pose proof (N.mod_lt b 16 ltac:(discriminate)) as Hb.
    split.
    + intros [= Hd Ht]. apply hex_digit_inj in Hd; [| done | done].
      apply IH in Ht. by rewrite Hd, Ht.
    + intros He.
      assert (a mod 16 = b mod 16 ∧
              (a / 16) mod 16 ^ N.of_nat w = (b / 16) mod 16 ^ N.of_nat w)
        as [Hd Ht].
      { revert He Ha Hb.
        generalize (a mod 16) (b mod 16) ((a / 16) mod 16 ^ N.of_nat w)
                   ((b / 16) mod 16 ^ N.of_nat w).
        intros; lia. }
      rewrite Hd. f_equal. by apply IH.
Qed.

Lemma hex_digits_le_app w1 w2 n :
  hex_digits_le (w1 + w2) n
  = hex_digits_le w1 n ++ hex_digits_le w2 (n / 16 ^ N.of_nat w1).
Proof.
  revert n. induction w1 as [| w1 IH]; intros n.
  - cbn. by rewrite N.div_1_r.
  - cbn [Nat.add hex_digits_le app]. rewrite IH.
    by rewrite Nat2N.inj_succ, N.pow_succ_r', N.Div0.div_div.
Qed.

Lemma unique_id_of_high n :
  unique_id_of n = rev (hex_digits_le 8 (n / 2 ^ 96)).
Proof.
  unfold unique_id_of, uuid_hex.
  change (hex_digits_le 32 n) with (hex_digits_le (24 + 8) n).
  rewrite (hex_digits_le_app 24 8 n), rev_app_distr.
  rewrite take_app_length' by (by rewrite length_rev, hex_digits_le_length).
  reflexivity.
Qed.

Lemma unique_id_of_eq n m :
  unique_id_of n = unique_id_of m ↔ top_32_bits n = top_32_bits m.
Proof.
  rewrite !unique_id_of_high. unfold top_32_bits.
  change (2 ^ 32) with (16 ^ N.of_nat 8). rewrite <- hex_digits_le_eq.
  split; [| by intros ->].
  intros H. apply (f_equal (@rev N)) in H. by rewrite !rev_involutive in H.
Qed.

Lemma hex_value_char_digit d : d < 16 → hex_value_char (hex_digit d) = Some d.
Proof.
  intros Hd. unfold hex_value_char, hex_digit.
  destruct (N.ltb_spec d 10).
  - assert ((48 <=? 48 + d) && (48 + d <=? 57) = true) as ->.
    { apply andb_true_intro. split; apply N.leb_le; lia. }
    f_equal. lia.
  - assert ((48 <=? 87 + d) && (87 + d <=? 57) = false) as ->.
    { apply andb_false_intro2, N.leb_gt. lia. }
    assert ((97 <=? 87 + d) && (87 + d <=? 102) = true) as ->.
    { apply andb_true_intro. split; apply N.leb_le; lia. }
    f_equal. lia.
Qed.

Lemma hex_value_digits w n :
  hex_value (rev (hex_digits_le w n)) = Some (n mod 16 ^ N.of_nat w).
Proof.
  unfold hex_value. revert n. induction w as [| w IH]; intros n.
  - cbn. by rewrite N.mod_1_r.
  - cbn [hex_digits_le rev]. rewrite foldl_app, IH. cbn [foldl mbind option_bind].
    rewrite hex_value_char_digit by (by apply N.mod_lt). cbn [mbind option_bind].
    rewrite Nat2N.inj_succ, N.pow_succ_r', N.Div0.mod_mul_r. f_equal. lia.
Qed.

Lemma unique_id_value n : hex_value (unique_id_of n) = Some (top_32_bits n).
Proof.
  rewrite unique_id_of_high, hex_value_digits. reflexivity.
Qed.

Lemma generate_success_body g :
  status (generate_success g) = 200%Z ∧
  body (generate_success g) !! lit "success" = Some (VBool true) ∧
  body (generate_success g) !! lit "preview_url"
    = Some (VStr (lit "/download/" ++ preview_filename g)) ∧
  body (generate_success g) !! lit "final_filename" = Some (VStr (final_filename g)) ∧
  body (generate_success g) !! lit "error" = None.
Proof. repeat split; by vm_compute. Qed.

Lemma generate_failure_body e :
  status (generate_failure e) = 500%Z ∧
  body (generate_failure e)
    = {[ lit "error" := VStr (lit "Failed to generate document: " ++ exn_str e) ]} ∧
  body (generate_failure e) !! lit "success" = None ∧
  body (generate_failure e) !! lit "preview_url" = None ∧
  body (generate_failure e) !! lit "final_filename" = None.
Proof. repeat split; by vm_compute. Qed.

Lemma generate_document_inr req t g :
  generate req = (t, inr g) → generate_document req = (t, inr (generate_success g)).
Proof. intros H. unfold generate_document. rewrite H. cbn. by rewrite app_nil_r. Qed.

Lemma generate_document_inl req t e :
  generate req = (t, inl e) →
  generate_document req
  = (t ++ [EvLogError (lit "Error generating document: " ++ exn_str e)],
     inr (generate_failure e)).
Proof. intros H. unfold generate_document. by rewrite H. Qed.

(** C6: a generation names its two artifacts from one token, drawn for
    this generation: the first eight characters of the hexadecimal form of
    the version 4 UUID that the random source hands out during the request.
    The token is eight hexadecimal digits, read as a number it is the 32
    leading bits of that UUID, and another UUID gives the same token only if
    it has the same leading bits. The preview is
    [preview_{document_type}_{token}.pdf], the final copy is
    [{document_type}_{token}.pdf], and these are the two names the response
    reports. *)
Theorem artifact_names_share_one_token req t g :
  generate req = (t, inr g) →
  unique_id g = unique_id_of (uuid4_int sv) ∧
  length (unique_id g) = 8%nat ∧
  Forall (λ c, is_hex_char c = true) (unique_id g) ∧
  hex_value (unique_id g) = Some (top_32_bits (uuid4_int sv)) ∧
  (∀ n, unique_id_of n = unique_id g ↔ top_32_bits n = top_32_bits (uuid4_int sv)) ∧
  preview_filename g
    = lit "preview_" ++ py_str (document_type (fields g)) ++ lit "_"
        ++ unique_id g ++ lit ".pdf" ∧
  final_filename g
    = py_str (document_type (fields g)) ++ lit "_" ++ unique_id g ++ lit ".pdf" ∧
  (∃ resp, generate_document req = (t, inr resp) ∧
     body resp !! lit "preview_url"
       = Some (VStr (lit "/download/" ++ preview_filename g)) ∧
     body resp !! lit "final_filename" = Some (VStr (final_filename g))).
Proof.
  intros H. pose proof (generate_document_inr _ _ _ H) as Hd.
  apply generate_inr in H as (data & choices & title & _ & _ & Hu & Hp & Hf & _).
  rewrite Hp, Hf, Hu.
  split; [reflexivity |]. split; [apply unique_id_length |].
  split; [apply unique_id_hex |]. split; [apply unique_id_value |].
  split; [intros n; apply unique_id_of_eq |].
  do 2 (split; [reflexivity |]).
  eexists. split; [exact Hd |].
  destruct (generate_success_body g) as (_ & _ & H1 & H2 & _).
  rewrite H1, H2, Hp, Hf, Hu. done.
Qed.

(** ** The response of [/generate-document] *)

(** C9: every call of the handler ends with a response, and there are two
    kinds: status 200 with [success: true], the preview URL
    [/download/{preview_filename}] and the final filename, all three together;
    or status 500 with a body whose only key is [error]. No response reports
    one artifact without the other. *)
Theorem generate_document_all_or_nothing req :
  ∃ t resp,
    generate_document req = (t, inr resp) ∧
    ((∃ g, outcome (generate req) = inr g ∧
           status resp = 200%Z ∧
           body resp !! lit "success" = Some (VBool true) ∧
           body resp !! lit "preview_url"
             = Some (VStr (lit "/download/" ++ preview_filename g)) ∧
           body resp !! lit "final_filename" = Some (VStr (final_filename g)) ∧
           body resp !! lit "error" = None)
     ∨
     (∃ e, outcome (generate req) = inl e ∧
           status resp = 500%Z ∧
           body resp
             = {[ lit "error" := VStr (lit "Failed to generate document: " ++ exn_str e) ]} ∧
           body resp !! lit "success" = None ∧
           body resp !! lit "preview_url" = None ∧
           body resp !! lit "final_filename" = None)).
Proof.
  destruct (generate req) as [t [e | g]] eqn:H.
  - rewrite (generate_document_inl _ _ _ H). eexists _, _. split; [reflexivity |].
    right. exists e. split; [done |]. apply generate_failure_body.
  - rewrite (generate_document_inr _ _ _ H). eexists _, _. split; [reflexivity |].
    left. exists g. split; [done |]. apply generate_success_body.
Qed.

(** ** PdfRenderer *)

Lemma document_title_cases dt v :
  document_title dt = mret v → ∃ ttl, v = VStr ttl ∧ ttl ∈ display_titles.
Proof.
  intros [_ ->]%document_title_inr. eexists. split; [reflexivity |].
  assert (Hfb : lit "Real Estate Document" ∈ display_titles).
  { unfold display_titles. rewrite !elem_of_cons. tauto. }
  unfold label_of. destruct dt; try exact Hfb.
  destruct (DOCUMENT_TYPES !! s) as [x |] eqn:Hx; [| exact Hfb]. cbn.
  apply elem_of_list_to_map_2 in Hx. unfold display_titles.
  rewrite !elem_of_cons in Hx. rewrite !elem_of_cons.
  destruct Hx as [[= _ ->] | [[= _ ->] | [[= _ ->] | [[= _ ->] | []%elem_of_nil]]]]; tauto.
Qed.

Lemma display_title_upper ttl :
  ttl ∈ display_titles →
  str_upper ttl = ascii_upper ttl ∧
  Paragraph (str_upper ttl) title_style ≠ watermark_marker.
Proof.
  unfold display_titles. rewrite !elem_of_cons.
  assert (Hall : Forall is_ascii display_titles).
  { unfold display_titles, is_ascii. repeat constructor. }
  unfold display_titles in Hall. rewrite !Forall_cons in Hall.
  destruct Hall as (H1 & H2 & H3 & H4 & H5 & _).
  intros [-> | [-> | [-> | [-> | [-> | []%elem_of_nil]]]]];
    (split; [by apply str_upper_ascii |]);
    rewrite str_upper_ascii by assumption; by vm_compute.
Qed.


Lemma create_pdf_returns text filepath client ttl watermark today :
  first_refused (title_block (str_upper ttl) client today watermark) = None →
  ∃ f, create_pdf (VStr text) filepath client (VStr ttl) watermark today = ([], inr f) ∧
       paragraphs f = split_on LF text ∧
       length (content f) = (if watermark then 8 else 6)%nat ∧
       body_paragraphs (content f) = [].
Proof.
  intros Hacc. rewrite create_pdf_titled, Hacc. eexists. split; [reflexivity |].
  by destruct watermark.
Qed.

Lemma create_pdf_adds_no_body text filepath client title watermark today t f :
  create_pdf text filepath client title watermark today = (t, inr f) →
  (∃ s, text = VStr s ∧ paragraphs f = split_on LF s) ∧
  length (content f) = (if watermark then 8 else 6)%nat ∧
  body_paragraphs (content f) = [].
Proof.
  intros (s & ? & -> & _ & _ & _ & Hp & ->)%create_pdf_inr.
  split; [eauto |]. by destruct watermark.
Qed.

(** ** Loading the module *)

Lemma load_name_bound g x v : g !! x = Some v → load_name g x = mret v.
Proof. intros H. unfold load_name. by rewrite H. Qed.

Lemma loads_bound loads g :
  Forall (λ x, is_Some (g !! x)) loads →
  ∃ vs, mapM (load_name g) loads = mret vs.
Proof.
  intros Hall. induction Hall as [| x l [v Hv] _ [vs IH]]; [by exists [] |].
  exists (v :: vs). cbn [mapM]. fold (mapM (load_name g) l).
  rewrite (load_name_bound _ _ _ Hv), bind_mret, IH. done.
Qed.

Lemma stmt_bound loads binds g :
  Forall (λ x, is_Some (g !! x)) loads →
  stmt loads binds g = mret (store_all binds g).
Proof. intros [vs Hvs]%loads_bound. unfold stmt. by rewrite Hvs. Qed.

Lemma stmt_at_bound line loads binds g :
  Forall (λ x, is_Some (g !! x)) loads →
  stmt_at line loads binds g
  = match raised_at line with
    | Some e => raise e
    | None => mret (store_all binds g)
    end.
Proof.
  intros [vs Hvs]%loads_bound. unfold stmt_at. rewrite Hvs, bind_mret. done.
Qed.

Local Ltac names_bound :=
  solve [repeat constructor; eexists; vm_compute; reflexivity].

Local Ltac statement_before_loop :=
  cbn [for_each];
  first
    [ rewrite stmt_bound by names_bound; rewrite bind_mret
    | rewrite stmt_at_bound by names_bound;
      lazymatch goal with
      | |- context [raised_at ?n] =>
          let e := fresh "e" in
          let He := fresh "He" in
          destruct (raised_at n) as [e |] eqn:He;
          [ left; exists n, e; split; [done |]; split; [exact He | reflexivity]
          | rewrite bind_mret ]
      end ].

(** The statements before the loop either bind the globals of the module one
    after the other, or stop at the first import or call that raises. *)
Lemma run_before_loop_cases :
  (∃ line e, (line < 157)%Z ∧ raised_at line = Some e ∧
             run statements_before_loop initial_globals = raise e) ∨
  run statements_before_loop initial_globals = mret globals_at_the_loop.
Proof.
  unfold run, statements_before_loop.
  do 28 statement_before_loop.
  right. cbn [for_each]. unfold globals_at_the_loop, store_all. cbn [foldl]. reflexivity.
Qed.

Lemma run_before_loop :
  (∀ line, (line < 157)%Z → raised_at line = None) →
  run statements_before_loop initial_globals = mret globals_at_the_loop.
Proof.
  intros Hquiet. destruct run_before_loop_cases as [(line & e & Hl & He & _) | H];
    [| exact H].
  rewrite Hquiet in He by done. discriminate.
Qed.

Lemma paragraphs_unbound_at_the_loop : globals_at_the_loop !! "paragraphs" = None.
Proof. by vm_compute. Qed.

Lemma loop_statement_fails :
  "paragraphs" ∉ builtins →
  for_para_in_paragraphs globals_at_the_loop = raise (name_error "paragraphs").
Proof.
  intros Hb. unfold for_para_in_paragraphs, load_name.
  rewrite paragraphs_unbound_at_the_loop. by rewrite decide_False.
Qed.

(** The load of the module never gets past the loop statement. *)
Lemma load_module_cases as_main :
  "paragraphs" ∉ builtins →
  (∃ line e, (line < 157)%Z ∧ raised_at line = Some e ∧
             load_module as_main = raise e) ∨
  (run statements_before_loop initial_globals = mret globals_at_the_loop ∧
   load_module as_main = raise (name_error "paragraphs")).
Proof.
  intros Hb. unfold load_module.
  destruct run_before_loop_cases as [(line & e & Hl & He & ->) | ->].
  - left. exists line, e. done.
  - right. split; [done |]. by rewrite bind_mret, loop_statement_fails.
Qed.

Lemma load_module_fails as_main :
  "paragraphs" ∉ builtins →
  (∀ line, (line < 157)%Z → raised_at line = None) →
  load_module as_main = raise (name_error "paragraphs").
Proof.
  intros Hb Hquiet.
  destruct (load_module_cases as_main Hb) as [(line & e & Hl & He & _) | [_ H]];
    [| exact H].
  rewrite Hquiet in He by done. discriminate.
Qed.

(** C1: [create_pdf] ends with the split of the text. Whatever its
    arguments, it performs no effect, so it writes no file, and when it
    returns it has put the title block and, for a preview, the marker into
    [content] and nothing else: no body paragraph. It returns whenever
    ReportLab accepts the paragraphs of the title block. The loop over
    [paragraphs] is a statement of the module, and the name is bound neither
    by an earlier statement nor in the builtins: the load of the module never
    completes, and unless an import or a call of an earlier statement raises
    first, it ends with the [NameError] for [paragraphs]. *)
Theorem create_pdf_stops_before_the_loop :
  "paragraphs" ∉ builtins →
  (∀ text filepath client ttl (watermark : bool) today,
     first_refused (title_block (str_upper ttl) client today watermark) = None →
     ∃ f, create_pdf (VStr text) filepath client (VStr ttl) watermark today
            = ([], inr f) ∧
          paragraphs f = split_on LF text ∧
          length (content f) = (if watermark then 8 else 6)%nat ∧
          body_paragraphs (content f) = []) ∧
  (∀ text filepath client title (watermark : bool) today,
     trace (create_pdf text filepath client title watermark today) = [] ∧
     ∀ f, outcome (create_pdf text filepath client title watermark today) = inr f →
          (∃ s, text = VStr s ∧ paragraphs f = split_on LF s) ∧
          length (content f) = (if watermark then 8 else 6)%nat ∧
          body_paragraphs (content f) = []) ∧
  (∀ as_main,
     (∃ e, load_module as_main = ([], inl e) ∧
           (e = Exn NameError (lit "name 'paragraphs' is not defined") ∨
            ∃ line, (line < 157)%Z ∧ raised_at line = Some e)) ∧
     ((∀ line, (line < 157)%Z → raised_at line = None) →
      load_module as_main
      = ([], inl (Exn NameError (lit "name 'paragraphs' is not defined"))))).
Proof.
  intros Hb. split; [| split].
  - intros. by apply create_pdf_returns.
  - intros. split; [apply create_pdf_trace |]. intros f Hf.
    destruct (create_pdf _ _ _ _ _ _) as [t r] eqn:Hc. cbn in Hf. subst r.
    by eapply create_pdf_adds_no_body.
  - intros as_main. split.
    + destruct (load_module_cases as_main Hb) as [(line & e & Hl & He & ->) | [_ ->]].
      * exists e. split; [done |]. right. by exists line.
      * eexists. split; [reflexivity |]. by left.
    + intros Hquiet. by rewrite load_module_fails.
Qed.

(** C3, evaluated on the one-line text [Hello]: the text has one non-blank
    line and the line survives the re-encoding, so one body paragraph is
    specified; whenever [create_pdf] returns on it, and it does when
    ReportLab accepts the title block, there is no body paragraph in
    [content]. *)
Theorem create_pdf_drops_the_body filepath client ttl watermark today :
  List.filter non_blank (split_on LF (lit "Hello")) = [lit "Hello"] ∧
  renderable_lines (lit "Hello") = [lit "Hello"] ∧
  (first_refused (title_block (str_upper ttl) client today watermark) = None →
   ∃ f, create_pdf (VStr (lit "Hello")) filepath client (VStr ttl) watermark today
          = ([], inr f) ∧
        paragraphs f = [lit "Hello"] ∧
        length (body_paragraphs (content f)) = 0%nat) ∧
  (∀ t f, create_pdf (VStr (lit "Hello")) filepath client (VStr ttl) watermark today
            = (t, inr f) →
          t = [] ∧ paragraphs f = [lit "Hello"] ∧
          length (body_paragraphs (content f)) = 0%nat).
Proof.
  split; [by vm_compute |]. split; [by vm_compute |]. split.
  - intros Hacc.
    destruct (create_pdf_returns (lit "Hello") filepath client ttl watermark today Hacc)
      as (f & Hf & Hp & _ & Hb).
    exists f. split; [exact Hf |]. rewrite Hp, Hb. split; by vm_compute.
  - intros t f Hf.
    pose proof (create_pdf_trace (VStr (lit "Hello")) filepath client (VStr ttl)
                  watermark today) as Ht.
    rewrite Hf in Ht. cbn in Ht.
    apply create_pdf_adds_no_body in Hf as ((s & [= <-] & Hp) & _ & Hb).
    rewrite Hp, Hb. split; [exact Ht |]. split; by vm_compute.
Qed.


(** ** CheckoutLinker *)

Lemma checkout_data_eq req : checkout_data req = ([], outcome (checkout_data req)).
Proof. unfold checkout_data. by destruct (is_json req), (form req). Qed.

(** C4: when the body the handler reads carries a non-empty filename, the
    handler asks the payment backend for exactly one session, whose success
    URL is [http://127.0.0.1:5001/download/] followed by that filename, so it
    ends with [/download/{filename}], and whose only line item has the unit
    amount 9900; the session the backend creates is what the response
    reports. *)
Theorem checkout_links_the_validated_filename req data name :
  outcome (checkout_data req) = inr data →
  field_of data "final_filename" = Some (VStr name) →
  name ≠ [] →
  let p := checkout_params (VStr name) in
  trace (create_checkout_session req) = [EvCheckoutSession p] ∧
  success_url p = lit "http://127.0.0.1:5001/download/" ++ name ∧
  ends_with (lit "/download/" ++ name) (success_url p) ∧
  (∃ item, line_items p = [item] ∧ unit_amount item = 9900%Z ∧
           quantity item = 1%Z ∧ currency item = lit "usd") ∧
  (∀ id, checkout_session_create sv p = inr id →
         outcome (create_checkout_session req)
         = inr (jsonify [ ("sessionId", id) ] 200)) ∧
  (∀ e, checkout_session_create sv p = inl e →
        outcome (create_checkout_session req)
        = inr (jsonify [ ("error", VStr (exn_str e)) ] 500)).
Proof.
  intros Hdata Hfield Hne p.
  assert (Hrun : create_checkout_session req
                 = try_except
                     (session_id ← call (EvCheckoutSession p) (checkout_session_create sv p);
                      mret (jsonify [ ("sessionId", session_id) ] 200))
                     (λ e, mret (jsonify [ ("error", VStr (exn_str e)) ] 500))).
  { unfold create_checkout_session. rewrite checkout_data_eq, Hdata.
    change (([], inr data) : M pyobj) with (mret data : M pyobj).
    rewrite bind_mret, get_mapping by (by destruct data).
    rewrite bind_mret, Hfield. cbn [default truthy negb].
    by destruct name. }
  rewrite Hrun. unfold call, emit.
  split; [| split; [reflexivity |]; split; [| split; [| split]]].
  - cbn. by destruct (checkout_session_create sv p).
  - exists (lit "http://127.0.0.1:5001"). unfold p. cbn [success_url checkout_params py_str].
    by rewrite (app_assoc _ _ name).
  - eexists. by split.
  - intros id ->. reflexivity.
  - intros e ->. reflexivity.
Qed.

(** What the handler does when no truthy filename is to be found in the
    request: the payment backend is never called. If the handler reads a JSON
    object or form data, where the filename is then absent or falsy, the
    response is status 400 with the error [Missing document filename]; if it
    reads anything else, or reading the body fails, the exception ends in the
    handler's last clause and the response is status 500 with its text. *)
Theorem missing_filename_never_reaches_the_backend req :
  (∀ data v, outcome (checkout_data req) = inr data →
             field_of data "final_filename" = Some v → truthy v = false) →
  ∃ resp,
    create_checkout_session req = ([], inr resp) ∧
    match outcome (checkout_data req) with
    | inr data =>
        if is_mapping data
        then resp = missing_filename ∧ status resp = 400%Z ∧
             body resp = {[ lit "error" := VStr (lit "Missing document filename") ]}
        else status resp = 500%Z
    | inl e => resp = jsonify [ ("error", VStr (exn_str e)) ] 500 ∧ status resp = 500%Z
    end.
Proof.
  intros Habsent. pose proof (checkout_data_eq req) as Heq.
  unfold create_checkout_session.
  destruct (outcome (checkout_data req)) as [e | data]; rewrite Heq; [by eexists |].
  specialize (Habsent data).
  change (([], inr data) : M pyobj) with (mret data : M pyobj). rewrite bind_mret.
  destruct (is_mapping data) eqn:Hm.
  - rewrite get_mapping, bind_mret by done.
    assert (truthy (default (VStr (lit "")) (field_of data "final_filename")) = false) as ->.
    { destruct (field_of data "final_filename") as [v |]; [by apply Habsent | done]. }
    eexists. split; [reflexivity |].
    split; [done |]. split; by vm_compute.
  - destruct data; try discriminate. by eexists.
Qed.

(** ** RequestNormalizer *)

(** C7, as the handler has it: from a JSON object or from form data the
    normalizer always produces a request; a field whose key is absent gets
    its fixed textual default, a field whose key is present keeps the value
    found, falsy or not; a clause flag is the truth value of the value found
    and is false when the key is absent. *)
Theorem absent_fields_get_their_defaults data :
  is_mapping data = true →
  ∃ r, extract data = mret r ∧
    defaulted data "document_type" (lit "real_estate_document") (document_type r) ∧
    defaulted data "buyer_name" (lit "Buyer") (buyer_name r) ∧
    defaulted data "seller_name" (lit "Seller") (seller_name r) ∧
    defaulted data "client_name" (lit "Client") (client_name r) ∧
    defaulted data "property_address" (lit "Unknown Address") (property_address r) ∧
    defaulted data "purchase_price" (lit "0") (purchase_price r) ∧
    defaulted data "closing_date" (lit "TBD") (closing_date r) ∧
    defaulted data "party_role" (lit "N/A") (party_role r) ∧
    defaulted data "property_state" (lit "Florida") (property_state r) ∧
    defaulted data "transaction_type" (lit "Residential Purchase") (transaction_type r) ∧
    defaulted data "additional_instructions" (lit "") (additional_instructions r) ∧
    flag_of data "clause_inspection" (clause_inspection r) ∧
    flag_of data "clause_financing" (clause_financing r) ∧
    flag_of data "clause_appraisal" (clause_appraisal r) ∧
    flag_of data "clause_hoa" (clause_hoa r).
Proof.
  intros Hm. rewrite (extract_mapping _ Hm). eexists. split; [reflexivity |].
  unfold defaulted, flag_of. cbn [document_type buyer_name seller_name client_name
    property_address purchase_price closing_date party_role property_state
    transaction_type additional_instructions clause_inspection clause_financing
    clause_appraisal clause_hoa].
  repeat split; by destruct (field_of data _).
Qed.

(** * Further properties *)

(** ** Splitting and stripping *)

Lemma split_on_nonempty sep s : split_on sep s ≠ [].
Proof.
  destruct s as [| c s]; cbn; [done |].
  destruct (c =? sep); [done |]. by destruct (split_on sep s).
Qed.

Lemma join_with_cons sep w ws :
  ws ≠ [] → join_with sep (w :: ws) = w ++ sep :: join_with sep ws.
Proof. by destruct ws. Qed.

Lemma split_on_facts sep s :
  join_with sep (split_on sep s) = s ∧
  Forall (λ w, sep ∉ w) (split_on sep s) ∧
  length (split_on sep s) = S (count_char sep s).
Proof.
  induction s as [| c s (IHj & IHf & IHl)]; cbn -[join_with].
  { split; [done |]. split; [by repeat constructor; apply not_elem_of_nil | done]. }
  unfold count_char in *. cbn [List.filter].
  destruct (N.eqb_spec c sep) as [-> | Hne].
  - split; [| split].
    + rewrite join_with_cons by apply split_on_nonempty. cbn. by rewrite IHj.
    + constructor; [apply not_elem_of_nil | done].
    + cbn. by rewrite IHl.
  - pose proof (split_on_nonempty sep s) as Hn.
    destruct (split_on sep s) as [| w ws]; [done |].
    split; [| split].
    + destruct ws; cbn in *; by rewrite <- IHj.
    + apply Forall_cons in IHf as [Hw Hws]. constructor; [| done].
      rewrite not_elem_of_cons. split; [congruence | done].
    + done.
Qed.

Lemma last_rev_head {A} (l : list A) : last (rev l) = head l.
Proof. destruct l as [| x l]; [done |]. cbn. by rewrite last_snoc. Qed.

Lemma all_space_no_other l :
  forallb is_space l = true → existsb (λ c, negb (is_space c)) l = false.
Proof.
  induction l as [| x l IH]; [done |]. cbn.
  intros [-> Hl]%andb_prop. by apply IH.
Qed.

(** X2: [text.split('\n')], with which [create_pdf] ends, loses nothing and
    leaves no line feed behind: joining the paragraphs with the line feed
    gives the text back, no paragraph contains a line feed, and there is one
    paragraph more than there are line feeds in the text, so at least one. *)
Theorem split_then_join_is_the_text text filepath client title watermark today t f :
  create_pdf text filepath client title watermark today = (t, inr f) →
  ∃ s, text = VStr s ∧
       join_with LF (paragraphs f) = s ∧
       Forall (λ w, LF ∉ w) (paragraphs f) ∧
       length (paragraphs f) = S (count_char LF s).
Proof.
  intros (s & _ & -> & _ & _ & _ & -> & _)%create_pdf_inr.
  exists s. split; [done |]. apply split_on_facts.
Qed.

Lemma lstrip_spec s :
  ∃ a, s = a ++ lstrip s ∧ forallb is_space a = true ∧
       match lstrip s with [] => True | c :: _ => is_space c = false end.
Proof.
  induction s as [| c s (a & Hs & Ha & Hh)]; [by exists [] |].
  cbn. destruct (is_space c) eqn:Hc.
  - exists (c :: a). cbn. rewrite Hc, Ha. by rewrite <- Hs.
  - by exists [].
Qed.

Lemma lstrip_keeps_last s c :
  last (lstrip s) = Some c → last s = Some c.
Proof.
  destruct (lstrip_spec s) as (a & Hs & _ & _). intros Hl.
  rewrite Hs. destruct (lstrip s) as [| x l] eqn:E; [done |].
  by rewrite last_app, Hl.
Qed.

(** X3: [para.strip()] is the paragraph without the white space at its two
    ends: what is cut off on either side is white space only, what is left
    neither starts nor ends with white space, and it is non-empty, so that
    the paragraph is rendered, exactly when the paragraph holds a character
    that is not white space. *)
Theorem strip_spec p :
  (∃ a b, p = a ++ strip p ++ b ∧
          forallb is_space a = true ∧ forallb is_space b = true) ∧
  (∀ c, head (strip p) = Some c → is_space c = false) ∧
  (∀ c, last (strip p) = Some c → is_space c = false) ∧
  non_blank p = existsb (λ c, negb (is_space c)) p.
Proof.
  unfold non_blank, strip.
  destruct (lstrip_spec p) as (a & Hp & Ha & Hhead).
  destruct (lstrip_spec (rev (lstrip p))) as (b & Hr & Hb & Hlast).
  set (m := lstrip (rev (lstrip p))) in *.
  assert (Hm : lstrip p = rev m ++ rev b).
  { by rewrite <- rev_app_distr, <- Hr, rev_involutive. }
  assert (Hsplit : p = a ++ rev m ++ rev b) by (by rewrite <- Hm).
  assert (Hlastm : ∀ c, last (rev m) = Some c → is_space c = false).
  { intros c. rewrite last_rev_head. destruct m; [done |]. by intros [= <-]. }
  assert (Hheadm : ∀ c, head (rev m) = Some c → is_space c = false).
  { intros c Hc. destruct (rev m) as [| x l] eqn:E; [done |].
    injection Hc as ->. rewrite Hm in Hhead. by cbn in Hhead. }
  split; [| split; [| split]]; try done.
  - exists a, (rev b). split; [done |]. split; [done |].
    rewrite forallb_forall in *. intros x Hx. apply Hb. by apply in_rev.
  - rewrite Hsplit, !existsb_app.
    rewrite (all_space_no_other a Ha).
    assert (existsb (λ c, negb (is_space c)) (rev b) = false) as ->.
    { apply all_space_no_other. rewrite forallb_forall in *.
      intros x Hx. apply Hb. by apply in_rev. }
    rewrite orb_false_r. cbn [orb].
    destruct (rev m) as [| x l] eqn:E; [done |].
    cbn. by rewrite (Hheadm x eq_refl).
Qed.

(** ** The token *)

(** X4: the token of a generation shows the 32 leading bits of the UUID and
    nothing else: two UUIDs give the same token exactly when they agree on
    these bits, and, for one document type, two generations name their
    preview, and their final copy, alike exactly when the tokens agree. *)
Theorem token_is_the_top_32_bits n m :
  (unique_id_of n = unique_id_of m ↔ top_32_bits n = top_32_bits m) ∧
  (∀ dt, preview_filename_of dt (unique_id_of n)
         = preview_filename_of dt (unique_id_of m)
         ↔ top_32_bits n = top_32_bits m) ∧
  (∀ dt, final_filename_of dt (unique_id_of n)
         = final_filename_of dt (unique_id_of m)
         ↔ top_32_bits n = top_32_bits m).
Proof.
  split; [apply unique_id_of_eq |].
  split; intros dt; rewrite <- unique_id_of_eq;
    unfold preview_filename_of, final_filename_of;
    (split; [| by intros ->]); intros H.
  - do 3 apply app_inv_head in H. by apply app_inv_tail in H.
  - do 2 apply app_inv_head in H. by apply app_inv_tail in H.
Qed.

(** ** The paths *)

Lemma DOWNLOAD_FOLDER_last cwd : last (DOWNLOAD_FOLDER cwd) = Some 115.
Proof.
  unfold DOWNLOAD_FOLDER. set (a := path_join cwd (lit "static")).
  unfold path_join. change (starts_with (lit "/") (lit "downloads")) with false.
  cbv iota. destruct (last a) as [c |]; [| done].
  destruct (c =? 47); by rewrite ?app_assoc, last_app.
Qed.

Lemma path_join_DOWNLOAD_FOLDER cwd f :
  path_join (DOWNLOAD_FOLDER cwd) f
  = if starts_with (lit "/") f then f else DOWNLOAD_FOLDER cwd ++ lit "/" ++ f.
Proof.
  unfold path_join at 1. rewrite DOWNLOAD_FOLDER_last.
  by destruct (starts_with (lit "/") f).
Qed.

(** X5: the preview path is always [DOWNLOAD_FOLDER/preview_...]. The final
    path is [DOWNLOAD_FOLDER/...] unless the document type, as it is
    formatted, starts with a slash: then [os.path.join] drops the folder, and
    the final copy is bound to the final filename itself, an absolute path
    that is the same whatever the download folder is. *)
Theorem final_path_leaves_the_folder_on_a_leading_slash req t g :
  generate req = (t, inr g) →
  preview_path g = DOWNLOAD_FOLDER (getcwd sv) ++ lit "/" ++ preview_filename g ∧
  (starts_with (lit "/") (py_str (document_type (fields g))) = false →
   final_path g = DOWNLOAD_FOLDER (getcwd sv) ++ lit "/" ++ final_filename g) ∧
  (starts_with (lit "/") (py_str (document_type (fields g))) = true →
   final_path g = final_filename g ∧
   doc_filename (doc (final g)) = final_filename g ∧
   starts_with (lit "/") (final_path g) = true ∧
   ∀ cwd, path_join (DOWNLOAD_FOLDER cwd) (final_filename g) = final_path g).
Proof.
  intros H.
  apply generate_inr in H
    as (_ & _ & title & _ & _ & _ & Hpn & Hfn & _ & _ & _ & Hpp & Hfp & _ & _ & Hf & _).
  apply create_pdf_inr in Hf as (_ & _ & _ & _ & _ & Hd & _).
  rewrite Hd. cbn [doc_filename].
  rewrite Hpp, Hfp, !path_join_DOWNLOAD_FOLDER, Hpn, Hfn.
  unfold preview_filename_of, final_filename_of.
  change (starts_with (lit "/") (lit "preview_" ++ _)) with false.
  assert (Hs : starts_with (lit "/")
                 (py_str (document_type (fields g)) ++ lit "_" ++ unique_id g ++ lit ".pdf")
               = starts_with (lit "/") (py_str (document_type (fields g)))).
  { destruct (py_str (document_type (fields g))); reflexivity. }
  rewrite Hs. split; [done |]. split; [by intros -> |].
  intros Habs. rewrite Habs. split; [done |]. split; [done |]. split; [by rewrite Hs |].
  intros cwd. by rewrite path_join_DOWNLOAD_FOLDER, Hs, Habs.
Qed.

(** ** The ways through [generate_document] *)

Lemma generate_body_unread req e :
  request_body req = inl e → generate req = ([], inl e).
Proof. intros Hbody. by enter_generate Hbody. Qed.

Lemma generate_not_a_mapping req v :
  request_body req = inr (OVal v) →
  generate req = ([], inl (attribute_error v "get")).
Proof. intros Hbody. by enter_generate Hbody. Qed.

Lemma generate_backend_raises req data r e :
  request_body req = inr data → extract data = mret r →
  chat_completions_create sv (chat_request_of (build_prompt r)) = inl e →
  generate req = ([EvChatCompletion (chat_request_of (build_prompt r))], inl e).
Proof. intros Hbody Hr Hc. enter_generate Hbody. by call_backend Hr Hc. Qed.

Lemma generate_no_choice req data r :
  request_body req = inr data → extract data = mret r →
  chat_completions_create sv (chat_request_of (build_prompt r)) = inr [] →
  generate req
  = ([EvChatCompletion (chat_request_of (build_prompt r))],
     inl (Exn IndexError (lit "list index out of range"))).
Proof. intros Hbody Hr Hc. enter_generate Hbody. by call_backend Hr Hc. Qed.

Lemma generate_unhashable req data r c rest :
  request_body req = inr data → extract data = mret r →
  chat_completions_create sv (chat_request_of (build_prompt r)) = inr (c :: rest) →
  hashable (document_type r) = false →
  generate req
  = ([EvChatCompletion (chat_request_of (build_prompt r))],
     inl (unhashable (document_type r))).
Proof.
  intros Hbody Hr Hc Hh. enter_generate Hbody. call_backend Hr Hc.
  destruct (document_type r) as [| | | |? ? ? []]; try discriminate. done.
Qed.

Lemma extract_outcome data :
  match outcome (extract data) with
  | inr r => extract data = mret r ∧ is_mapping data = true
  | inl e => ∃ v, data = OVal v ∧ e = attribute_error v "get"
  end.
Proof.
  destruct data as [d | f | v]; [| | by exists v];
    by rewrite extract_mapping.
Qed.

(** Every way through the [try] block, by what the request, the completion
    backend and the paragraph parser provide. *)
Lemma generate_table req :
  match request_body req with
  | inl e => generate req = ([], inl e)
  | inr data =>
      match outcome (extract data) with
      | inl e => generate req = ([], inl e)
      | inr r =>
          ∃ o, generate req
               = ([EvChatCompletion (chat_request_of (build_prompt r))], o) ∧
               ((∃ g, o = inr g) ↔
                hashable (document_type r) = true ∧
                (∃ text rest,
                   chat_completions_create sv (chat_request_of (build_prompt r))
                   = inr (VStr text :: rest)) ∧
                first_refused (title_block (str_upper (label_of (document_type r)))
                                 (client_name r) (today_preview sv) true) = None ∧
                first_refused (title_block (str_upper (label_of (document_type r)))
                                 (client_name r) (today_final sv) false) = None)
      end
  end.
Proof.
  destruct (request_body req) as [e | data] eqn:Hbody.
  { by apply generate_body_unread. }
  pose proof (extract_outcome data) as Hx.
  destruct (outcome (extract data)) as [e | r].
  { destruct Hx as (v & -> & ->). by apply generate_not_a_mapping. }
  destruct Hx as [Hr _].
  destruct (chat_completions_create sv (chat_request_of (build_prompt r)))
    as [e | [| c rest]] eqn:Hc.
  - eexists. split; [by eapply generate_backend_raises |].
    split; [by intros [? ?] | by intros (_ & (? & ? & ?) & _)].
  - eexists. split; [by eapply generate_no_choice |].
    split; [by intros [? ?] | by intros (_ & (? & ? & ?) & _)].
  - destruct (hashable (document_type r)) eqn:Hh.
    + destruct (generate_after_the_call _ _ _ _ _ Hbody Hr Hc Hh) as (o & Hg & Ho).
      exists o. split; [exact Hg |].
      destruct (first_refused (title_block _ _ (today_preview sv) true)) as [e |].
      { subst o. split; [by intros [? ?] | by intros (_ & _ & ? & _)]. }
      destruct c;
        try (subst o; split; [by intros [? ?] | by intros (_ & (? & ? & ?) & _)]).
      destruct (first_refused (title_block _ _ (today_final sv) false)) as [e |].
      { subst o. split; [by intros [? ?] | by intros (_ & _ & _ & ?)]. }
      destruct Ho as (g & -> & _). split; [| eauto]. intros _. eauto 6.
    + eexists. split; [by eapply generate_unhashable |].
      split; [by intros [? ?] | by intros [? _]].
Qed.

(** X6: the completion backend is called exactly when the body of the
    request is read as a JSON object or as form data, and then exactly once,
    with the prompt of the normalized fields: a body that cannot be read, or
    that is no mapping, is refused before the call, and there is no second
    call whatever the backend answers. No document is built on any way
    through the handler. *)
Theorem completion_backend_called_once_per_mapping req :
  chat_requests (trace (generate_document req))
  = match request_body req with
    | inr data =>
        match outcome (extract data) with
        | inr r => [chat_request_of (build_prompt r)]
        | inl _ => []
        end
    | inl _ => []
    end ∧
  documents_built (trace (generate_document req)) = [].
Proof.
  pose proof (generate_table req) as H.
  destruct (request_body req) as [e | data].
  { by rewrite (generate_document_inl _ _ _ H). }
  destruct (outcome (extract data)) as [e | r].
  { by rewrite (generate_document_inl _ _ _ H). }
  destruct H as ([e | g] & H & _).
  - by rewrite (generate_document_inl _ _ _ H).
  - by rewrite (generate_document_inr _ _ _ H).
Qed.


(** X8: a document type that cannot be hashed (a JSON array or object) is
    only found out by the lookup of the display title, after the completion
    backend has been called and has answered: the handler makes the call,
    then fails with status 500 and the text of the [TypeError]. *)
Theorem unhashable_type_fails_after_the_backend_call req data r c rest :
  request_body req = inr data →
  extract data = mret r →
  hashable (document_type r) = false →
  chat_completions_create sv (chat_request_of (build_prompt r)) = inr (c :: rest) →
  generate_document req
  = ([ EvChatCompletion (chat_request_of (build_prompt r));
       EvLogError (lit "Error generating document: unhashable type: '"
                   ++ type_name (document_type r) ++ lit "'") ],
     inr (jsonify [ ("error", VStr (lit "Failed to generate document: unhashable type: '"
                                    ++ type_name (document_type r) ++ lit "'")) ] 500)).
Proof.
  intros Hbody Hr Hh Hc.
  rewrite (generate_document_inl _ _ _ (generate_unhashable _ _ _ _ _ Hbody Hr Hc Hh)).
  reflexivity.
Qed.

(** X9: what the completion backend can do to a request that was read: when
    the call raises, the handler answers with status 500 and the text of the
    exception; when the completion has no choice, with the text of the
    [IndexError]; when its first choice has no text ([None]) and ReportLab
    accepts the title block of the preview, with the text of the
    [AttributeError] that [text.split] raises in [create_pdf]; and when the
    first choice is no [str] the answer is status 500 in any case. In all
    cases the error is logged after the one call. *)
Theorem completions_without_text_end_in_500 req data r :
  request_body req = inr data →
  extract data = mret r →
  let p := chat_request_of (build_prompt r) in
  (∀ e, chat_completions_create sv p = inl e →
        generate_document req
        = ([ EvChatCompletion p;
             EvLogError (lit "Error generating document: " ++ exn_str e) ],
           inr (generate_failure e))) ∧
  (chat_completions_create sv p = inr [] →
   generate_document req
   = ([ EvChatCompletion p;
        EvLogError (lit "Error generating document: list index out of range") ],
      inr (jsonify [ ("error", VStr (lit "Failed to generate document: list index out of range")) ] 500))) ∧
  (∀ rest, chat_completions_create sv p = inr (VNone :: rest) →
           hashable (document_type r) = true →
           first_refused (title_block (str_upper (label_of (document_type r)))
                            (client_name r) (today_preview sv) true) = None →
           generate_document req
           = ([ EvChatCompletion p;
                EvLogError (lit "Error generating document: 'NoneType' object has no attribute 'split'") ],
              inr (jsonify [ ("error", VStr (lit "Failed to generate document: 'NoneType' object has no attribute 'split'")) ] 500))) ∧
  (∀ c rest, chat_completions_create sv p = inr (c :: rest) →
             (∀ s, c ≠ VStr s) →
             ∃ e, generate_document req
                  = ([ EvChatCompletion p;
                       EvLogError (lit "Error generating document: " ++ exn_str e) ],
                     inr (generate_failure e)) ∧
                  status (generate_failure e) = 500%Z).
Proof.
  intros Hbody Hr p. split; [| split; [| split]].
  - intros e Hc.
    by rewrite (generate_document_inl _ _ _ (generate_backend_raises _ _ _ _ Hbody Hr Hc)).
  - intros Hc.
    by rewrite (generate_document_inl _ _ _ (generate_no_choice _ _ _ Hbody Hr Hc)).
  - intros rest Hc Hh Hacc.
    destruct (generate_after_the_call _ _ _ _ _ Hbody Hr Hc Hh) as (o & Hg & Ho).
    rewrite Hacc in Ho. subst o.
    by rewrite (generate_document_inl _ _ _ Hg).
  - intros c rest Hc Hnt.
    destruct (hashable (document_type r)) eqn:Hh.
    + destruct (generate_after_the_call _ _ _ _ _ Hbody Hr Hc Hh) as (o & Hg & Ho).
      destruct (first_refused _) as [e |].
      { subst o. exists e. by rewrite (generate_document_inl _ _ _ Hg). }
      destruct c; try (subst o; eexists; by rewrite (generate_document_inl _ _ _ Hg)).
      by destruct (Hnt s).
    + eexists.
      by rewrite (generate_document_inl _ _ _ (generate_unhashable _ _ _ _ _ Hbody Hr Hc Hh)).
Qed.

(** ** The ways through [create_checkout_session] *)

Lemma checkout_with_filename req data v :
  outcome (checkout_data req) = inr data →
  field_of data "final_filename" = Some v →
  truthy v = true →
  create_checkout_session req
  = ([EvCheckoutSession (checkout_params v)],
     inr match checkout_session_create sv (checkout_params v) with
         | inr id => jsonify [ ("sessionId", id) ] 200
         | inl e => jsonify [ ("error", VStr (exn_str e)) ] 500
         end).
Proof.
  intros Hdata Hfield Hv. unfold create_checkout_session.
  rewrite checkout_data_eq, Hdata.
  change (([], inr data) : M pyobj) with (mret data : M pyobj).
  rewrite bind_mret, get_mapping by (by destruct data).
  rewrite bind_mret, Hfield.
  change (default (VStr (lit "")) (Some v)) with v. rewrite Hv. cbn [negb].
  unfold call, emit. by destruct (checkout_session_create sv (checkout_params v)).
Qed.

Lemma checkout_without_filename req :
  match outcome (checkout_data req) with
  | inr data => truthy (default (VStr (lit "")) (field_of data "final_filename")) = false
  | inl _ => True
  end →
  ∃ resp, create_checkout_session req = ([], inr resp) ∧
          (resp = missing_filename ∨ status resp = 500%Z).
Proof.
  intros H. pose proof (checkout_data_eq req) as Heq.
  unfold create_checkout_session.
  destruct (outcome (checkout_data req)) as [e | data]; rewrite Heq.
  { eexists. split; [reflexivity |]. by right. }
  change (([], inr data) : M pyobj) with (mret data : M pyobj). rewrite bind_mret.
  destruct data as [d | f | v].
  - rewrite get_mapping, bind_mret, H by done. eexists. split; [reflexivity |]. by left.
  - rewrite get_mapping, bind_mret, H by done. eexists. split; [reflexivity |]. by left.
  - eexists. split; [reflexivity |]. by right.
Qed.

(** X10: the payment backend is asked for a session exactly when the body
    the handler reads is a mapping that holds a truthy [final_filename], and
    then exactly once, with that value formatted into the success URL. The
    handler always answers, with status 200, 400 or 500: 200 only with the
    session the backend created, 400 only with the error
    [Missing document filename]. *)
Theorem payment_backend_called_iff_filename req :
  session_requests (trace (create_checkout_session req))
  = match outcome (checkout_data req) with
    | inr data =>
        match field_of data "final_filename" with
        | Some v => if truthy v then [checkout_params v] else []
        | None => []
        end
    | inl _ => []
    end ∧
  ∃ resp,
    outcome (create_checkout_session req) = inr resp ∧
    (status resp = 200%Z ∨ status resp = 400%Z ∨ status resp = 500%Z) ∧
    (status resp = 200%Z →
     ∃ v id, session_requests (trace (create_checkout_session req))
             = [checkout_params v] ∧
             checkout_session_create sv (checkout_params v) = inr id ∧
             body resp = {[ lit "sessionId" := id ]}) ∧
    (status resp = 400%Z → resp = missing_filename).
Proof.
  destruct (outcome (checkout_data req)) as [e | data] eqn:Hdata.
  { destruct (checkout_without_filename req) as (resp & -> & Hr);
      [by rewrite Hdata |].
    split; [done |]. exists resp. split; [done |].
    destruct Hr as [-> | Hr]; [by repeat split; auto |].
    rewrite Hr. by repeat split; auto. }
  destruct (field_of data "final_filename") as [v |] eqn:Hf;
    [destruct (truthy v) eqn:Hv |].
  - rewrite (checkout_with_filename req data v Hdata Hf Hv).
    split; [done |]. eexists. split; [reflexivity |].
    destruct (checkout_session_create sv (checkout_params v)) as [e | id] eqn:Hc.
    + by repeat split; auto.
    + repeat split; auto; [| done]. intros _. exists v, id. by repeat split.
  - destruct (checkout_without_filename req) as (resp & -> & Hr);
      [by rewrite Hdata, Hf |].
    split; [done |]. exists resp. split; [done |].
    destruct Hr as [-> | Hr]; [by repeat split; auto |].
    rewrite Hr. by repeat split; auto.
  - destruct (checkout_without_filename req) as (resp & -> & Hr);
      [by rewrite Hdata, Hf |].
    split; [done |]. exists resp. split; [done |].
    destruct Hr as [-> | Hr]; [by repeat split; auto |].
    rewrite Hr. by repeat split; auto.
Qed.

(** X11: the two names of a generation are tied together and to the
    checkout: the preview filename is the final filename with [preview_] in
    front, so the preview URL of the response is
    [/download/preview_{final_filename}]; the final filename is never empty;
    and a checkout request that carries it is never refused: the payment
    backend is asked for a session whose success URL ends with
    [/download/{final_filename}]. *)
Theorem generated_filename_passes_the_checkout req t g :
  generate req = (t, inr g) →
  preview_filename g = lit "preview_" ++ final_filename g ∧
  body (generate_success g) !! lit "preview_url"
    = Some (VStr (lit "/download/preview_" ++ final_filename g)) ∧
  final_filename g ≠ [] ∧
  ∀ req' data,
    outcome (checkout_data req') = inr data →
    field_of data "final_filename" = Some (VStr (final_filename g)) →
    ∃ p, trace (create_checkout_session req') = [EvCheckoutSession p] ∧
         success_url p = lit "http://127.0.0.1:5001/download/" ++ final_filename g.
Proof.
  intros H.
  apply generate_inr in H as (_ & _ & _ & _ & _ & _ & Hpn & Hfn & _).
  assert (Hne : final_filename g ≠ []).
  { rewrite Hfn. unfold final_filename_of.
    intros Heq. apply (f_equal length) in Heq. rewrite !length_app in Heq.
    cbn in Heq. lia. }
  split; [by rewrite Hpn, Hfn |]. split; [| split; [done |]].
  - destruct (generate_success_body g) as (_ & _ & -> & _).
    rewrite Hpn, Hfn. unfold preview_filename_of, final_filename_of.
    by rewrite (app_assoc (lit "/download/") (lit "preview_")).
  - intros req' data Hdata Hfield.
    eexists. rewrite (checkout_with_filename req' data _ Hdata Hfield).
    + split; reflexivity.
    + by destruct (final_filename g).
Qed.

(** ** Form data *)

Lemma form_flag f key :
  truthy (default VNone (field_of (OMulti f) key)) = true ↔
  ∃ s, multi_get f (lit key) = Some s ∧ s ≠ [].
Proof.
  cbn [field_of]. destruct (multi_get f (lit key)) as [s |]; cbn.
  - destruct s; split; try done; [by intros (? & [= <-] & ?) | eauto].
  - split; [done | by intros (? & ? & _)].
Qed.

(** X12: from form data every text field of the normalized request is a
    [str], and a clause flag is set exactly when its field is present with a
    non-empty value, whatever the value says: [false], [0] or [off] set the
    flag like any other text, only an absent or empty field leaves it
    unset. *)
Theorem form_flags_are_set_by_any_text f :
  ∃ r, extract (OMulti f) = mret r ∧
    Forall (λ v, ∃ s, v = VStr s)
      [ document_type r; buyer_name r; seller_name r; client_name r;
        property_address r; purchase_price r; closing_date r; party_role r;
        property_state r; transaction_type r; additional_instructions r ] ∧
    (clause_inspection r = true ↔
     ∃ s, multi_get f (lit "clause_inspection") = Some s ∧ s ≠ []) ∧
    (clause_financing r = true ↔
     ∃ s, multi_get f (lit "clause_financing") = Some s ∧ s ≠ []) ∧
    (clause_appraisal r = true ↔
     ∃ s, multi_get f (lit "clause_appraisal") = Some s ∧ s ≠ []) ∧
    (clause_hoa r = true ↔
     ∃ s, multi_get f (lit "clause_hoa") = Some s ∧ s ≠ []).
Proof.
  rewrite extract_mapping by done. eexists. split; [reflexivity |].
  cbn [document_type buyer_name seller_name client_name property_address
       purchase_price closing_date party_role property_state transaction_type
       additional_instructions clause_inspection clause_financing
       clause_appraisal clause_hoa].
  split; [| repeat split; apply form_flag].
  repeat constructor; cbn [field_of];
    match goal with |- context [multi_get f ?k] => destruct (multi_get f k) end;
    cbn; eauto.
Qed.

(** ** The display title *)

(** X13: the title that heads both documents of a generation is never text
    of the request: it is one of the four labels of [DOCUMENT_TYPES] or the
    fallback label, in upper case, and it is the label of the document type
    whenever the document type is one of the four keys. *)
Theorem display_title_is_a_fixed_label req t g :
  generate req = (t, inr g) →
  ∃ ttl, ttl ∈ display_titles ∧
    head (content (preview g)) = Some (Paragraph (ascii_upper ttl) title_style) ∧
    head (content (final g)) = Some (Paragraph (ascii_upper ttl) title_style) ∧
    ∀ s label, document_type (fields g) = VStr s →
               DOCUMENT_TYPES !! s = Some label → ttl = label.
Proof.
  intros H.
  apply generate_inr in H
    as (_ & _ & title & _ & _ & _ & _ & _ & _ & _ & _ & _ & _ & Ht & Hp & Hf & _).
  pose proof (document_title_inr _ _ _ Ht) as [_ Hv].
  apply document_title_cases in Ht as (ttl & -> & Hin).
  apply create_pdf_inr in Hp as (? & ? & _ & [= <-] & _ & _ & _ & ->).
  apply create_pdf_inr in Hf as (? & ? & _ & [= <-] & _ & _ & _ & ->).
  destruct (display_title_upper ttl Hin) as [-> _].
  exists ttl. split; [done |]. split; [done |]. split; [done |].
  intros s label Hs Hl. rewrite Hs in Hv. unfold label_of in Hv.
  rewrite Hl in Hv. by injection Hv.
Qed.

(** ** Loading the module *)

(** X14: when the load of the module stops at the loop, none of the
    statements before it having raised, the three functions defined before
    the loop are bound, [index], [generate_document] and [create_pdf], and
    the two defined after it are not: neither [download_file] nor
    [create_checkout_session] has been defined, and the server is never
    started. *)
Theorem functions_after_the_loop_are_never_defined as_main :
  "paragraphs" ∉ builtins →
  (∀ line, (line < 157)%Z → raised_at line = None) →
  ∃ g, run statements_before_loop initial_globals = mret g ∧
       is_Some (g !! "index") ∧
       is_Some (g !! "generate_document") ∧
       is_Some (g !! "create_pdf") ∧
       g !! "download_file" = None ∧
       g !! "create_checkout_session" = None ∧
       g !! "port" = None ∧
       (g ← run statements_before_loop initial_globals;
        for_para_in_paragraphs g) = raise (name_error "paragraphs") ∧
       load_module as_main = raise (name_error "paragraphs").
Proof.
  intros Hb Hquiet. exists globals_at_the_loop.
  split; [by apply run_before_loop |].
  do 3 (split; [eexists; vm_compute; reflexivity |]).
  do 3 (split; [by vm_compute |]).
  split; [| by apply load_module_fails].
  by rewrite run_before_loop, bind_mret, loop_statement_fails.
Qed.

(** ** The re-encoding *)

(** X1: [para.encode('utf-8').decode('utf-8')] never changes a paragraph: it
    returns the paragraph as it is, or it fails, and it fails exactly when
    the paragraph holds a surrogate (or a value beyond the last code
    point). *)
Theorem reencode_fails_or_changes_nothing p :
  (∀ s, reencode p = Some s → s = p) ∧
  (reencode p = None ↔
   ∃ c, c ∈ p ∧ (is_surrogate c = true ∨ 1114112 <= c)).
Proof.
  rewrite reencode_spec.
  destruct (forallb _ p) eqn:Hall.
  - split; [by intros s [= <-] |]. split; [done |].
    intros (c & Hin & Hc). rewrite forallb_forall in Hall.
    apply list_elem_of_In, Hall in Hin. apply andb_prop in Hin as [H1 H2].
    apply N.ltb_lt in H2. destruct Hc as [Hc | Hc]; [by rewrite Hc in H1 | lia].
  - split; [done |]. split; [intros _ | done].
    assert (Hex : existsb (λ c, is_surrogate c || (1114112 <=? c)) p = true).
    { clear -Hall. induction p as [| c p IH]; [done |]. cbn in *.
      apply andb_false_iff in Hall as [Hc | Hp]; [| by rewrite IH, orb_true_r].
      apply andb_false_iff in Hc as [Hc | Hc].
      - apply negb_false_iff in Hc. by rewrite Hc.
      - apply N.ltb_ge, N.leb_le in Hc. by rewrite Hc, orb_true_r. }
    apply existsb_exists in Hex as (c & Hin & Hc).
    exists c. split; [by apply list_elem_of_In |].
    apply orb_prop in Hc as [Hc | Hc]; [by left | right; by apply N.leb_le].
Qed.

(** ** The loop, were its names in scope *)

Lemma line_160_eq g p :
  g !! "para" = Some (GStr p) →
  line_160 g = match reencode p with
               | Some s => mret (<["safe_para" := GStr s]> g)
               | None => raise (encode_error p)
               end.
Proof.
  intros Hp. unfold line_160. rewrite (load_name_bound _ _ _ Hp), bind_mret.
  by destruct (reencode p).
Qed.

Lemma line_161_eq g l s :
  g !! "content" = Some (GFlowables l) →
  g !! "Paragraph" = Some GObject →
  g !! "safe_para" = Some (GStr s) →
  g !! "normal_style" = Some (GStyle normal_style) →
  line_161 g = match markup_error s normal_style with
               | Some e => raise e
               | None => mret (<["content" := GFlowables (l ++ [Paragraph s normal_style])]> g)
               end.
Proof.
  intros Hc HP Hs Hst. unfold line_161, new_Paragraph.
  rewrite (load_name_bound _ _ _ Hc), bind_mret, (load_name_bound _ _ _ HP), bind_mret,
    (load_name_bound _ _ _ Hs), bind_mret, (load_name_bound _ _ _ Hst), bind_mret.
  destruct (markup_error s normal_style); [done |]. by rewrite bind_mret.
Qed.

Lemma line_162_eq g l :
  g !! "content" = Some (GFlowables l) →
  g !! "Spacer" = Some GObject →
  line_162 g = mret (<["content" := GFlowables (l ++ [Spacer 1 6])]> g).
Proof.
  intros Hc HS. unfold line_162.
  by rewrite (load_name_bound _ _ _ Hc), bind_mret, (load_name_bound _ _ _ HS), bind_mret.
Qed.

Lemma except_clause_eq g e :
  "print" ∈ builtins →
  except_clause g e
  = ([EvPrint (lit "Encoding error: " ++ exn_str e)],
     inr (delete "e" (<["e" := GObject]> g))).
Proof.
  intros Hprint. unfold except_clause.
  assert (∃ v, load_name (<["e" := GObject]> g) "print" = mret v) as [v ->].
  { unfold load_name. destruct (_ !! "print"); [eauto |].
    rewrite decide_True by done. eauto. }
  rewrite bind_mret, (load_name_bound _ "e" GObject) by (by simplify_map_eq).
  by rewrite bind_mret.
Qed.

Lemma line_166_eq g d l :
  g !! "doc" = Some (GDoc d) →
  g !! "content" = Some (GFlowables l) →
  build_error d l = None →
  line_166 g = ([EvBuild d l], inr (<["content" := GFlowables []]> g)).
Proof.
  intros Hd Hc Hb. unfold line_166, build, call, emit.
  rewrite (load_name_bound _ _ _ Hd), bind_mret, (load_name_bound _ _ _ Hc), bind_mret.
  by rewrite Hb.
Qed.

(** The [try] statement of a turn: it adds the body of the line to
    [content], or prints the exception it caught, and never raises. *)
Lemma guarded_paragraph g d c p :
  "print" ∈ builtins →
  bound_as_in_create_pdf g d c →
  g !! "para" = Some (GStr p) →
  non_blank p = true →
  ∃ g', guarded [line_160; line_161; line_162] except_clause g
        = (match line_error p with
           | Some e => [EvPrint (lit "Encoding error: " ++ exn_str e)]
           | None => []
           end, inr g') ∧
        bound_as_in_create_pdf g' d (c ++ body_of_line p).
Proof.
  intros Hprint (Hc & Hd & Hst & HP & HS) Hp Hnb.
  unfold line_error, body_of_line. rewrite Hnb. cbn [guarded].
  rewrite (line_160_eq _ _ Hp). destruct (reencode p) as [s |].
  - cbn [mret M_ret].
    rewrite (line_161_eq _ c s) by (by simplify_map_eq).
    destruct (markup_error s normal_style) as [e |].
    + cbn [raise]. rewrite except_clause_eq by done. cbn [app].
      eexists. split; [reflexivity |]. rewrite app_nil_r.
      repeat split; by simplify_map_eq.
    + cbn [mret M_ret].
      rewrite (line_162_eq _ (c ++ [Paragraph s normal_style])) by (by simplify_map_eq).
      cbn [mret M_ret app]. eexists. split; [reflexivity |].
      rewrite <- app_assoc. repeat split; by simplify_map_eq.
  - cbn [raise]. rewrite except_clause_eq by done. cbn [app].
    eexists. split; [reflexivity |]. rewrite app_nil_r.
    repeat split; by simplify_map_eq.
Qed.

(** One turn: the [try] statement, then the build of what [content] holds,
    which leaves [content] empty. *)
Lemma loop_turn_builds g d c p :
  "print" ∈ builtins →
  (∀ l, build_error d l = None) →
  bound_as_in_create_pdf g d c →
  ∃ g', loop_turn g p
        = (match line_error p with
           | Some e => [EvPrint (lit "Encoding error: " ++ exn_str e)]
           | None => []
           end ++ [EvBuild d (c ++ body_of_line p)], inr g') ∧
        bound_as_in_create_pdf g' d [].
Proof.
  intros Hprint Hbuild Hg. unfold loop_turn.
  assert (Hg0 : bound_as_in_create_pdf (<["para" := GStr p]> g) d c).
  { destruct Hg as (? & ? & ? & ? & ?). repeat split; by simplify_map_eq. }
  destruct (non_blank p) eqn:Hnb.
  - destruct (guarded_paragraph _ d c p Hprint Hg0) as (g1 & -> & Hg1);
      [by simplify_map_eq | done |].
    destruct Hg1 as (Hc & Hd & Hst & HP & HS).
    cbn [mbind M_bind]. rewrite (line_166_eq _ _ _ Hd Hc (Hbuild _)).
    eexists. split; [reflexivity |]. repeat split; by simplify_map_eq.
  - rewrite bind_mret. destruct Hg0 as (Hc & Hd & Hst & HP & HS).
    rewrite (line_166_eq _ _ _ Hd Hc (Hbuild _)).
    unfold line_error, body_of_line. rewrite Hnb, app_nil_r. cbn [app].
    eexists. split; [reflexivity |]. repeat split; by simplify_map_eq.
Qed.

Lemma documents_built_app t1 t2 :
  documents_built (t1 ++ t2) = documents_built t1 ++ documents_built t2.
Proof. apply omap_app. Qed.

Lemma printed_app t1 t2 : printed (t1 ++ t2) = printed t1 ++ printed t2.
Proof. apply omap_app. Qed.

Lemma loop_builds ps g d c :
  "print" ∈ builtins →
  (∀ l, build_error d l = None) →
  bound_as_in_create_pdf g d c →
  ∃ t g', for_each loop_turn g ps = (t, inr g') ∧
          bound_as_in_create_pdf g' d (match ps with [] => c | _ => [] end) ∧
          documents_built t
          = match ps with
            | [] => []
            | p :: ps' => (d, c ++ body_of_line p) :: ((λ q, (d, body_of_line q)) <$> ps')
            end ∧
          printed t
          = omap (λ q, (λ e, lit "Encoding error: " ++ exn_str e) <$> line_error q) ps.
Proof.
  intros Hprint Hbuild. revert g c. induction ps as [| p ps IH]; intros g c Hg.
  - exists [], g. done.
  - destruct (loop_turn_builds g d c p Hprint Hbuild Hg) as (g1 & Hturn & Hg1).
    destruct (IH g1 [] Hg1) as (t2 & g2 & Hrest & Hg2 & Hb2 & Hp2).
    eexists _, g2. cbn [for_each]. rewrite Hturn. cbn [mbind M_bind]. rewrite Hrest.
    split; [reflexivity |]. split; [by destruct ps |].
    rewrite !documents_built_app, !printed_app, Hb2, Hp2. split.
    + assert (documents_built
                match line_error p with
                | Some e => [EvPrint (lit "Encoding error: " ++ exn_str e)]
                | None => []
                end = []) as -> by (by destruct (line_error p)).
      cbn [app documents_built omap list_omap]. f_equal. by destruct ps.
    + cbn [omap list_omap]. by destruct (line_error p).
Qed.

(** X15: the loop of lines 157 to 166, run from globals that bind the names
    it reads as [create_pdf] binds its local variables and with builds that
    return, goes through every line of the text without aborting. A
    non-blank line whose re-encoding or whose markup fails is printed and
    skipped. [doc.build(content)] being indented into the loop, the document
    is built once per line, blank lines included; and since a build empties
    the list it is given, the first build gets the content found plus the
    body of the first line, every later build gets the body of its own line
    only, and [content] is empty after the loop. *)
Theorem loop_builds_the_document_every_turn g d c text :
  "print" ∈ builtins →
  (∀ l, build_error d l = None) →
  bound_as_in_create_pdf g d c →
  g !! "paragraphs" = Some (GStrs (split_on LF text)) →
  ∃ t g' p ps,
    split_on LF text = p :: ps ∧
    for_para_in_paragraphs g = (t, inr g') ∧
    documents_built t
    = (d, c ++ body_of_line p) :: ((λ q, (d, body_of_line q)) <$> ps) ∧
    length (documents_built t) = S (count_char LF text) ∧
    printed t
    = omap (λ q, (λ e, lit "Encoding error: " ++ exn_str e) <$> line_error q) (p :: ps) ∧
    g' !! "content" = Some (GFlowables []).
Proof.
  intros Hprint Hbuild Hg Hps. unfold for_para_in_paragraphs.
  rewrite (load_name_bound _ _ _ Hps), bind_mret.
  destruct (loop_builds (split_on LF text) g d c Hprint Hbuild Hg)
    as (t & g' & Hrun & Hg' & Hb & Hp).
  destruct (split_on_facts LF text) as (_ & _ & Hlen).
  destruct (split_on LF text) as [| p ps] eqn:Hsplit; [by apply split_on_nonempty in Hsplit |].
  exists t, g', p, ps. split; [done |]. split; [exact Hrun |]. split; [exact Hb |].
  split; [| split; [exact Hp | apply Hg']].
  rewrite Hb, <- Hlen. cbn. by rewrite length_fmap.
Qed.

(** ** The lines of the prompt *)

Lemma split_on_without sep w : sep ∉ w → split_on sep w = [w].
Proof.
  induction w as [| c w IH]; [done |]. rewrite not_elem_of_cons.
  intros [Hc Hw]. cbn. rewrite IH by done.
  destruct (N.eqb_spec c sep); [congruence | done].
Qed.

Lemma split_on_app_sep sep w s :
  sep ∉ w → split_on sep (w ++ sep :: s) = w :: split_on sep s.
Proof.
  induction w as [| c w IH]; cbn.
  - by rewrite N.eqb_refl.
  - rewrite not_elem_of_cons. intros [Hc Hw]. rewrite IH by done.
    destruct (N.eqb_spec c sep); [congruence | done].
Qed.

Lemma split_on_join_with sep ws :
  ws ≠ [] → Forall (λ w, sep ∉ w) ws → split_on sep (join_with sep ws) = ws.
Proof.
  induction ws as [| w ws IH]; [done |]. intros _ [Hw Hws]%Forall_cons.
  destruct ws as [| w' ws'].
  - cbn. by apply split_on_without.
  - rewrite join_with_cons by done. rewrite split_on_app_sep by done.
    by rewrite IH.
Qed.

Lemma build_prompt_join r :
  build_prompt r = join_with LF ([] :: prompt_lines r ++ [[]]).
Proof.
  unfold build_prompt. rewrite join_with_cons by (by destruct (prompt_lines r)).
  cbn [app nl]. f_equal.
  induction (prompt_lines r) as [| l ls IH]; [done |].
  cbn [fmap list_fmap concat app].
  rewrite join_with_cons by (by destruct ls). rewrite IH.
  by rewrite <- app_assoc.
Qed.

Lemma line_of_field (label : string) (v : pystr) :
  LF ∉ lit label → LF ∉ v → LF ∉ lit label ++ v.
Proof. intros ? ?. by rewrite not_elem_of_app. Qed.

(** X16: a request whose text fields hold no line feed cannot add a line to
    the prompt: split at the line feeds, the prompt is the empty first line,
    the twenty-one lines of the template, each field on the line of its
    label, and the empty piece after the last line feed. *)
Theorem prompt_has_one_line_per_field r :
  Forall (λ v, LF ∉ py_str v)
    [ document_type r; buyer_name r; seller_name r; property_address r;
      purchase_price r; closing_date r; party_role r; property_state r;
      transaction_type r; additional_instructions r ] →
  split_on LF (build_prompt r) = [] :: prompt_lines r ++ [[]] ∧
  length (split_on LF (build_prompt r)) = 23%nat ∧
  split_on LF (build_prompt r) !! 5%nat
  = Some (lit "- Document Type: " ++ py_str (document_type r)) ∧
  split_on LF (build_prompt r) !! 19%nat
  = Some (lit "- Additional Instructions: " ++ py_str (additional_instructions r)).
Proof.
  rewrite !Forall_cons.
  intros (H1 & H2 & H3 & H4 & H5 & H6 & H7 & H8 & H9 & H10 & _).
  assert (Hsplit : split_on LF (build_prompt r) = [] :: prompt_lines r ++ [[]]).
  { rewrite build_prompt_join. apply split_on_join_with; [done |].
    constructor; [apply not_elem_of_nil |]. apply Forall_app. split.
    - unfold prompt_lines, fmt_bool. rewrite !Forall_cons.
      repeat split;
        first [ exact I
              | apply not_elem_of_nil
              | solve [constructor]
              | apply line_of_field;
                [apply (bool_decide_unpack _); by vm_compute | assumption]
              | match goal with
                | |- context [VBool ?b] =>
                    destruct b; apply (bool_decide_unpack _); by vm_compute
                end
              | apply (bool_decide_unpack _); by vm_compute ].
    - constructor; [apply not_elem_of_nil | constructor]. }
  rewrite Hsplit. repeat split.
Qed.

(** ** The two backends *)

(** X17: the two handlers keep to their own collaborator: a call of
    [/generate-document] never asks the payment backend for a session, and a
    call of [/create-checkout-session] never calls the completion backend
    and builds no document. *)
Theorem handlers_keep_to_their_backend req :
  session_requests (trace (generate_document req)) = [] ∧
  chat_requests (trace (create_checkout_session req)) = [] ∧
  documents_built (trace (create_checkout_session req)) = [].
Proof.
  split.
  - pose proof (generate_table req) as H.
    destruct (request_body req) as [e | data].
    { by rewrite (generate_document_inl _ _ _ H). }
    destruct (outcome (extract data)) as [e | r].
    { by rewrite (generate_document_inl _ _ _ H). }
    destruct H as ([e | g] & H & _).
    + by rewrite (generate_document_inl _ _ _ H).
    + by rewrite (generate_document_inr _ _ _ H).
  - destruct (outcome (checkout_data req)) as [e | data] eqn:Hdata.
    { destruct (checkout_without_filename req) as (resp & -> & _);
        [by rewrite Hdata | done]. }
    destruct (field_of data "final_filename") as [v |] eqn:Hf;
      [destruct (truthy v) eqn:Hv |].
    + by rewrite (checkout_with_filename req data v Hdata Hf Hv).
    + destruct (checkout_without_filename req) as (resp & -> & _);
        [by rewrite Hdata, Hf | done].
    + destruct (checkout_without_filename req) as (resp & -> & _);
        [by rewrite Hdata, Hf | done].
Qed.

End Pipeline.

(** * The theorems at concrete requests *)

(** Upper-casing limited to the ASCII letters is one admissible [str.upper]. *)
Lemma ascii_upper_is_ascii_upper s : is_ascii s → ascii_upper s = ascii_upper s.
Proof. reflexivity. Defined.

Lemma create_pdf_stops_before_the_loop_witness :
  ("paragraphs" ∉ builtin_names) ∧
  load_module sample_markup_error builtin_names no_startup_error no_build_error true
  = ([], inl (Exn NameError (lit "name 'paragraphs' is not defined"))) ∧
  (∃ e, load_module sample_markup_error builtin_names keyless_startup no_build_error true
        = ([], inl e)) ∧
  ∃ f, create_pdf ascii_upper sample_markup_error
         (VStr (lit "Line one" ++ nl ++ lit "Line two"))
         (lit "/srv/instantre/static/downloads/preview_addendum_ab12cd34.pdf")
         (VStr (lit "Carol")) (VStr (lit "Real Estate Contract Addendum")) true
         (lit "November 03, 2026")
       = ([], inr f) ∧
       paragraphs f = split_on LF (lit "Line one" ++ nl ++ lit "Line two") ∧
       length (content f) = 8%nat ∧
       body_paragraphs (content f) = [].
Proof.
  assert (H : "paragraphs" ∉ builtin_names).
  { apply (bool_decide_unpack _). vm_compute. exact I. }
  split; [exact H |].
  destruct (create_pdf_stops_before_the_loop ascii_upper sample_markup_error
              builtin_names no_startup_error no_build_error H)
    as (Hret & _ & Hload).
  destruct (create_pdf_stops_before_the_loop ascii_upper sample_markup_error
              builtin_names keyless_startup no_build_error H)
    as (_ & _ & Hkeyless).
  split; [apply Hload; intros line _; reflexivity |].
  split; [destruct (Hkeyless true) as [(e & He & _) _]; by exists e |].
  apply Hret. vm_compute. reflexivity.
Defined.

Lemma create_pdf_drops_the_body_witness :
  ∃ f, create_pdf ascii_upper sample_markup_error (VStr (lit "Hello"))
         (lit "/srv/instantre/static/downloads/addendum_ab12cd34.pdf")
         (VStr (lit "Carol")) (VStr (lit "Real Estate Contract Addendum")) false
         (lit "November 03, 2026")
       = ([], inr f) ∧
       paragraphs f = [lit "Hello"] ∧
       length (body_paragraphs (content f)) = 0%nat.
Proof.
  destruct (create_pdf_drops_the_body ascii_upper sample_markup_error
              (lit "/srv/instantre/static/downloads/addendum_ab12cd34.pdf")
              (VStr (lit "Carol")) (lit "Real Estate Contract Addendum") false
              (lit "November 03, 2026")) as (_ & _ & Hret & _).
  apply Hret. vm_compute. reflexivity.
Defined.

Lemma checkout_links_the_validated_filename_witness :
  outcome (checkout_data paid_request)
    = inr (ODict {[ lit "final_filename" := VStr (lit "sales_contract_ab12cd34.pdf") ]}) ∧
  lit "sales_contract_ab12cd34.pdf" ≠ [] ∧
  ∃ p, trace (create_checkout_session sample_services paid_request)
         = [EvCheckoutSession p] ∧
       ends_with (lit "/download/sales_contract_ab12cd34.pdf") (success_url p) ∧
       ∃ item, line_items p = [item] ∧ unit_amount item = 9900%Z.
Proof.
  assert (H1 : outcome (checkout_data paid_request)
               = inr (ODict {[ lit "final_filename"
                                 := VStr (lit "sales_contract_ab12cd34.pdf") ]})).
  { vm_compute. reflexivity. }
  assert (H2 : field_of (ODict {[ lit "final_filename"
                                    := VStr (lit "sales_contract_ab12cd34.pdf") ]})
                        "final_filename"
               = Some (VStr (lit "sales_contract_ab12cd34.pdf"))).
  { vm_compute. reflexivity. }
  assert (H3 : lit "sales_contract_ab12cd34.pdf" ≠ []).
  { vm_compute. discriminate. }
  split; [exact H1 |]. split; [exact H3 |].
  destruct (checkout_links_the_validated_filename sample_services paid_request
              _ _ H1 H2 H3) as (Ht & _ & Hend & (item & Hitem & Hamount & _) & _).
  eexists. split; [exact Ht |]. split; [exact Hend |]. eauto.
Defined.

Lemma missing_filename_never_reaches_the_backend_witness :
  outcome (checkout_data empty_object_request) = inr (ODict ∅) ∧
  field_of (ODict ∅) "final_filename" = None ∧
  create_checkout_session sample_services empty_object_request
  = ([], inr missing_filename).
Proof.
  assert (H1 : outcome (checkout_data empty_object_request) = inr (ODict ∅)).
  { vm_compute. reflexivity. }
  assert (H2 : field_of (ODict ∅) "final_filename" = None).
  { vm_compute. reflexivity. }
  split; [exact H1 |]. split; [exact H2 |].
  destruct (missing_filename_never_reaches_the_backend sample_services
              empty_object_request) as (resp & Hresp & Hkind).
  { intros data v Hd Hf. rewrite H1 in Hd. injection Hd as <-.
    rewrite H2 in Hf. discriminate. }
  rewrite H1 in Hkind. cbn in Hkind. destruct Hkind as (-> & _).
  exact Hresp.
Defined.

Lemma artifact_names_share_one_token_witness :
  ∃ t g,
    generate ascii_upper sample_markup_error sample_services lease_request = (t, inr g) ∧
    unique_id g = lit "ab12cd34" ∧
    hex_value (unique_id g) = Some 0xab12cd34 ∧
    preview_filename g = lit "preview_lease_agreement_ab12cd34.pdf" ∧
    final_filename g = lit "lease_agreement_ab12cd34.pdf".
Proof.
  eexists _, _. split; [vm_compute; reflexivity |].
  edestruct (artifact_names_share_one_token ascii_upper sample_markup_error
               sample_services lease_request) as (Hu & _ & _ & Hv & _ & Hp & Hf & _);
    [vm_compute; reflexivity |].
  split; [rewrite Hu; vm_compute; reflexivity |].
  split; [rewrite Hv; vm_compute; reflexivity |].
  split; [rewrite Hp | rewrite Hf]; vm_compute; reflexivity.
Defined.

Lemma absent_fields_get_their_defaults_witness :
  is_mapping empty_buyer = true ∧
  ∃ r, extract empty_buyer = mret r ∧
       seller_name r = VStr (lit "Seller") ∧
       buyer_name r = VStr (lit "").
Proof.
  assert (H : is_mapping empty_buyer = true) by reflexivity.
  split; [exact H |].
  destruct (absent_fields_get_their_defaults empty_buyer H)
    as (r & Hr & _ & Hb & Hs & _).
  exists r. split; [exact Hr |]. split; [exact Hs | exact Hb].
Defined.


(** * Where the specification and the handlers part *)

(** C2, evaluated on the lease scenario, where the completion has two
    renderable lines: the handler answers with status 200 and the URL of a
    preview, but neither call of [create_pdf] builds its document, so no
    artifact is rendered that could carry the marker or the body: the marker
    is put into the list of the preview, the lists of the two calls hold no
    body paragraph, and both lists are dropped when [create_pdf] returns. *)
Theorem no_artifact_is_rendered :
  ∃ t g text,
    generate ascii_upper sample_markup_error sample_services lease_request
    = (t, inr g) ∧
    generate_document ascii_upper sample_markup_error sample_services lease_request
    = (t, inr (generate_success g)) ∧
    status (generate_success g) = 200%Z ∧
    body (generate_success g) !! lit "preview_url"
    = Some (VStr (lit "/download/preview_lease_agreement_ab12cd34.pdf")) ∧
    documents_built t = [] ∧
    document_text g = VStr text ∧
    length (renderable_lines text) = 2%nat ∧
    watermark_marker ∈ content (preview g) ∧
    body_paragraphs (content (preview g)) = [] ∧
    body_paragraphs (content (final g)) = [].
Proof.
  eexists _, _, _. split; [vm_compute; reflexivity |].
  split; [apply generate_document_inr; vm_compute; reflexivity |].
  split; [reflexivity |]. split; [by vm_compute |]. split; [reflexivity |].
  split; [reflexivity |]. split; [by vm_compute |].
  split; [| split; by vm_compute].
  apply (bool_decide_unpack _). by vm_compute.
Qed.

(** C5, evaluated on a checkout request without a body: there is no filename
    in it and the payment backend is not called, but the response is status
    500 with the text of the exception that [data.get] raised on [None], and
    not status 400 with [Missing document filename]. The same happens when
    [get_json] raises, and for a JSON body that is [null]. *)
Theorem bodyless_checkout_gets_500 :
  outcome (checkout_data bodyless_request) = inr (OVal VNone) ∧
  field_of (OVal VNone) "final_filename" = None ∧
  create_checkout_session sample_services bodyless_request
  = ([], inr (jsonify [ ("error", VStr (lit "'NoneType' object has no attribute 'get'")) ] 500)) ∧
  create_checkout_session sample_services bodyless_request
  ≠ ([], inr missing_filename) ∧
  create_checkout_session sample_services bodyless_request_raising
  = ([], inr (jsonify [ ("error", VStr (lit "415 Unsupported Media Type: Did not attempt to load JSON data because the request Content-Type was not 'application/json'.")) ] 500)) ∧
  create_checkout_session sample_services json_null_request
  = ([], inr (jsonify [ ("error", VStr (lit "'NoneType' object has no attribute 'get'")) ] 500)).
Proof.
  split; [by vm_compute |]. split; [by vm_compute |]. split; [by vm_compute |].
  split; [| split; by vm_compute].
  intros H. vm_compute in H. discriminate H.
Qed.

(** C7, as the specification has it, fails on a body whose buyer name is
    present and empty: the field is falsy and stays empty instead of
    becoming [Buyer]; and the defaults of the absent document type, client
    name and property address are not among the listed ones. *)
Lemma empty_buyer_is_not_defaulted :
  extract empty_buyer
  = mret {| document_type := VStr (lit "real_estate_document");
            buyer_name := VStr (lit "");
            seller_name := VStr (lit "Seller");
            client_name := VStr (lit "Client");
            property_address := VStr (lit "Unknown Address");
            purchase_price := VStr (lit "0");
            closing_date := VStr (lit "TBD");
            party_role := VStr (lit "N/A");
            property_state := VStr (lit "Florida");
            transaction_type := VStr (lit "Residential Purchase");
            additional_instructions := VStr (lit "");
            clause_inspection := false; clause_financing := false;
            clause_appraisal := false; clause_hoa := false |} ∧
  truthy (VStr (lit "")) = false ∧
  VStr (lit "") ≠ VStr (lit "Buyer") ∧
  (lit "real_estate_document" ∉ listed_defaults) ∧
  (lit "Client" ∉ listed_defaults) ∧
  (lit "Unknown Address" ∉ listed_defaults).
Proof.
  split; [by vm_compute |]. split; [reflexivity |].
  split; [intros H; vm_compute in H; discriminate H |].
  repeat split; apply (bool_decide_unpack _); by vm_compute.
Qed.

(** * The further properties at concrete requests *)

Lemma split_then_join_is_the_text_witness :
  ∃ t f,
    create_pdf ascii_upper sample_markup_error
      (VStr (lit "Deed" ++ nl ++ nl ++ lit "  "))
      (lit "deed.pdf") (VStr (lit "Carol")) (VStr (lit "Real Estate Document"))
      false (lit "November 03, 2026")
    = (t, inr f) ∧
    paragraphs f = [lit "Deed"; []; lit "  "] ∧
    join_with LF (paragraphs f) = lit "Deed" ++ nl ++ nl ++ lit "  " ∧
    length (paragraphs f) = 3%nat.
Proof.
  eexists _, _. split; [vm_compute; reflexivity |].
  edestruct (split_then_join_is_the_text ascii_upper sample_markup_error
               (VStr (lit "Deed" ++ nl ++ nl ++ lit "  "))
               (lit "deed.pdf") (VStr (lit "Carol"))
               (VStr (lit "Real Estate Document")) false
               (lit "November 03, 2026")) as (s & Hs & Hj & _ & Hl);
    [vm_compute; reflexivity |].
  injection Hs as <-.
  split; [vm_compute; reflexivity |]. split; [exact Hj | exact Hl].
Defined.

Lemma final_path_leaves_the_folder_on_a_leading_slash_witness :
  ∃ t g,
    generate ascii_upper sample_markup_error sample_services absolute_type_request
    = (t, inr g) ∧
    preview_path g
    = lit "/srv/instantre/static/downloads/preview_/tmp/lease_ab12cd34.pdf" ∧
    final_path g = lit "/tmp/lease_ab12cd34.pdf" ∧
    doc_filename (doc (final g)) = lit "/tmp/lease_ab12cd34.pdf".
Proof.
  eexists _, _. split; [vm_compute; reflexivity |].
  edestruct (final_path_leaves_the_folder_on_a_leading_slash ascii_upper
               sample_markup_error sample_services absolute_type_request)
    as (Hp & _ & Hf); [vm_compute; reflexivity |].
  assert (Hs : starts_with (lit "/") (lit "/tmp/lease") = true) by reflexivity.
  specialize (Hf Hs). destruct Hf as (Hf & Hd & _).
  split; [rewrite Hp; vm_compute; reflexivity |].
  split; [rewrite Hf | rewrite Hd]; vm_compute; reflexivity.
Defined.

Lemma unhashable_type_fails_after_the_backend_call_witness :
  ∃ data r t resp,
    request_body array_type_request = inr data ∧
    extract data = mret r ∧
    hashable (document_type r) = false ∧
    generate_document ascii_upper sample_markup_error sample_services
      array_type_request = (t, inr resp) ∧
    length (chat_requests t) = 1%nat ∧
    resp = jsonify [ ("error", VStr (lit "Failed to generate document: unhashable type: 'list'")) ] 500.
Proof.
  eexists _, _, _, _.
  split; [vm_compute; reflexivity |]. split; [vm_compute; reflexivity |].
  split; [vm_compute; reflexivity |].
  split; [eapply (unhashable_type_fails_after_the_backend_call ascii_upper
                    sample_markup_error sample_services array_type_request);
          vm_compute; reflexivity |].
  split; [reflexivity | vm_compute; reflexivity].
Defined.

Lemma completions_without_text_end_in_500_witness :
  ∃ data r,
    request_body lease_request = inr data ∧
    extract data = mret r ∧
    generate_document ascii_upper sample_markup_error silent_services lease_request
    = ([ EvChatCompletion (chat_request_of (build_prompt r));
         EvLogError (lit "Error generating document: 'NoneType' object has no attribute 'split'") ],
       inr (jsonify [ ("error", VStr (lit "Failed to generate document: 'NoneType' object has no attribute 'split'")) ] 500)).
Proof.
  eexists _, _.
  split; [vm_compute; reflexivity |]. split; [vm_compute; reflexivity |].
  edestruct (completions_without_text_end_in_500 ascii_upper sample_markup_error
               silent_services lease_request) as (_ & _ & Hnone & _);
    [vm_compute; reflexivity | vm_compute; reflexivity |].
  apply (Hnone []); vm_compute; reflexivity.
Defined.

Lemma generated_filename_passes_the_checkout_witness :
  ∃ t g p,
    generate ascii_upper sample_markup_error sample_services lease_request
    = (t, inr g) ∧
    final_filename g = lit "lease_agreement_ab12cd34.pdf" ∧
    preview_filename g = lit "preview_" ++ final_filename g ∧
    trace (create_checkout_session sample_services lease_checkout_request)
    = [EvCheckoutSession p] ∧
    success_url p = lit "http://127.0.0.1:5001/download/" ++ final_filename g.
Proof.
  eexists _, _, _. split; [vm_compute; reflexivity |].
  edestruct (generated_filename_passes_the_checkout ascii_upper sample_markup_error
               sample_services lease_request) as (Hpre & _ & _ & Hpay);
    [vm_compute; reflexivity |].
  split; [vm_compute; reflexivity |]. split; [exact Hpre |].
  edestruct (Hpay lease_checkout_request) as (p & Ht & Hu);
    [vm_compute; reflexivity | vm_compute; reflexivity |].
  split; [vm_compute; reflexivity |]. vm_compute. reflexivity.
Defined.

Lemma display_title_is_a_fixed_label_witness :
  ∃ t g,
    generate ascii_upper sample_markup_error sample_services lease_request
    = (t, inr g) ∧
    head (content (preview g))
    = Some (Paragraph (lit "RESIDENTIAL LEASE AGREEMENT") title_style) ∧
    head (content (final g))
    = Some (Paragraph (lit "RESIDENTIAL LEASE AGREEMENT") title_style).
Proof.
  eexists _, _. split; [vm_compute; reflexivity |].
  edestruct (display_title_is_a_fixed_label ascii_upper ascii_upper_is_ascii_upper
               sample_markup_error sample_services lease_request)
    as (ttl & _ & Hp & Hf & Hkey); [vm_compute; reflexivity |].
  rewrite (Hkey (lit "lease_agreement") (lit "Residential Lease Agreement"))
    in Hp, Hf by (vm_compute; reflexivity).
  split; [exact Hp | exact Hf].
Defined.

Lemma functions_after_the_loop_are_never_defined_witness :
  ("paragraphs" ∉ builtin_names) ∧
  ∃ g, run (statements_before_loop builtin_names no_startup_error) initial_globals
       = mret g ∧
       is_Some (g !! "generate_document") ∧
       g !! "download_file" = None ∧
       g !! "create_checkout_session" = None.
Proof.
  assert (H : "paragraphs" ∉ builtin_names).
  { apply (bool_decide_unpack _). vm_compute. exact I. }
  split; [exact H |].
  destruct (functions_after_the_loop_are_never_defined sample_markup_error
              builtin_names no_startup_error no_build_error true H)
    as (g & Hrun & _ & Hgen & _ & Hd & Hc & _).
  { intros line _. reflexivity. }
  exists g. split; [exact Hrun |]. split; [exact Hgen |]. split; [exact Hd | exact Hc].
Defined.

Lemma loop_builds_the_document_every_turn_witness :
  ("print" ∈ builtin_names) ∧
  ∃ t g',
    for_para_in_paragraphs sample_markup_error builtin_names no_build_error
      globals_with_a_frame = (t, inr g') ∧
    length <$> (snd <$> documents_built t) = [3; 0; 0]%nat ∧
    printed t = [] ∧
    g' !! "content" = Some (GFlowables []).
Proof.
  assert (H : "print" ∈ builtin_names).
  { apply (bool_decide_unpack _). vm_compute. exact I. }
  split; [exact H |].
  edestruct (loop_builds_the_document_every_turn sample_markup_error builtin_names
               no_build_error globals_with_a_frame
               {| doc_filename := lit "/srv/instantre/static/downloads/deed_ab12cd34.pdf";
                  pagesize := letter |}
               [Spacer 1 20] (lit "Deed" ++ nl ++ nl ++ lit "  ") H)
    as (t & g' & p & ps & Hsplit & Hrun & Hbuilt & _ & Hprinted & Hc).
  - intros l. reflexivity.
  - repeat split; vm_compute; reflexivity.
  - vm_compute. reflexivity.
  - assert (Hp : p = lit "Deed" ∧ ps = [[]; lit "  "]).
    { vm_compute in Hsplit. by injection Hsplit as <- <-. }
    destruct Hp as [-> ->].
    exists t, g'. split; [exact Hrun |].
    split; [rewrite Hbuilt; vm_compute; reflexivity |].
    split; [rewrite Hprinted; vm_compute; reflexivity | exact Hc].
Defined.

Lemma prompt_has_one_line_per_field_witness :
  ∃ r, extract (OMulti (form deed_request)) = mret r ∧
       length (split_on LF (build_prompt r)) = 23%nat ∧
       split_on LF (build_prompt r) !! 5%nat
       = Some (lit "- Document Type: quitclaim_deed").
Proof.
  eexists. split; [vm_compute; reflexivity |].
  match goal with
  | |- length (split_on LF (build_prompt ?r)) = _ ∧ _ =>
      destruct (prompt_has_one_line_per_field r) as (_ & Hlen & Hline & _)
  end.
  - repeat constructor; apply (bool_decide_unpack _); vm_compute; exact I.
  - split; [exact Hlen |]. rewrite Hline. vm_compute. reflexivity.
Defined.

(** A client name with an unclosed tag: the completion is a text and the
    document type is known, and the handler answers with status 500 and the
    [ValueError] of the paragraph [Prepared for: <b>Carol]. *)
Example bold_client_is_refused :
  ∃ t e,
    generate ascii_upper sample_markup_error sample_services bold_client_request
    = (t, inl e) ∧
    outcome (generate_document ascii_upper sample_markup_error sample_services
               bold_client_request) = inr (generate_failure e) ∧
    chat_requests t ≠ [] ∧
    exn_cls e = ValueError ∧
    status (generate_failure e) = 500%Z ∧
    first_refused sample_markup_error
      (title_block (lit "RESIDENTIAL LEASE AGREEMENT") (VStr (lit "<b>Carol"))
         (lit "November 03, 2026") true) = Some e.
Proof.
  eexists _, _. split; [vm_compute; reflexivity |].
  split; [erewrite generate_document_inl by (vm_compute; reflexivity); reflexivity |].
  split; [by vm_compute |]. split; [reflexivity |]. split; [reflexivity |].
  vm_compute. reflexivity.
Qed.
